(** * TypeScriptWorkspace: the coordinator of the TypeScript editor plugin

    A shallow embedding of [lib/TypeScriptWorkspace.ts].  The coordinator is
    event-driven glue code: every handler runs to completion against a store
    of shared objects (the per-editor state objects, the status bar model)
    and against the host (registered commands and key maps, stream
    subscriptions, interval timers, the HTML event being dispatched).

    Handlers are written in a small monad that threads the store and can
    throw: a JavaScript [TypeError] keeps every side effect that happened
    before it. *)

From Stdlib Require Import ZArith String List Bool Lia.
From stdpp Require Import base option list gmap strings fin_maps.
Import ListNotations.

Local Open Scope Z_scope.

(** ** Values exchanged with the host and the language service *)

(** A buffer position ([Point] of the host). *)
Record Point := mkPoint { row : Z; column : Z }.

(** The host's generic editor: its identifier and [getGrammar().name]. *)
Record TextEditor := mkTextEditor { id : Z; grammarName : string }.

(** The plugin's wrapper of an editor of the recognized language; the
    coordinator only reads its [id] and asks it for quick-info. *)
Record TypeScriptTextEditor := mkTypeScriptTextEditor { tsId : Z }.

(** [ts.Diagnostic]: only [messageText] is read. *)
Record Diagnostic := mkDiagnostic { messageText : string }.

(** [ts.QuickInfo]: opaque to the coordinator. *)
Record QuickInfo := mkQuickInfo { displayText : string }.

(** The two shapes in which [setTooltip] is called. *)
Inductive Tooltip :=
| TooltipMessage (text : string) (bufferPosition : Point)
| TooltipQuickInfo (info : QuickInfo) (bufferPosition : Point).

(** [CursorPositionChangeEventData]. *)
Record CursorPositionChangeEventData := mkCursorData {
  oldBufferPosition : Point;
  newBufferPosition : Point;
  textChanged : bool
}.

(** ** Per-editor state objects *)

(** References to objects of the store. *)
Abbreviation ref := nat (only parsing).

(** Modelled from the spec: the class [TypeScriptTextEditorState] lives in
    [lib/state/TypeScriptTextEditorState.ts], whose source is not at hand.
    The record holds what the coordinator reads and writes
    ([autoCompleteInProgress], [inError], the [dataSlots] property bag) and
    the marks the spec talks about: active, disposed, the tooltip shown. *)
Record TypeScriptTextEditorState := mkState {
  owner : Z;
  active : bool;
  disposed : bool;
  autoCompleteInProgress : bool;
  inError : bool;
  tooltip : option Tooltip;
  dataSlots : gmap string bool
}.

(** Modelled from the spec: [new TypeScriptTextEditorState(editor)] gives a
    state that is neither active nor disposed, with no auto-complete session,
    no tooltip and an empty property bag. *)
Definition newTypeScriptTextEditorState (e : TypeScriptTextEditor)
  : TypeScriptTextEditorState :=
  {| owner := tsId e; active := false; disposed := false;
     autoCompleteInProgress := false; inError := false; tooltip := None;
     dataSlots := ∅ |}.

#[global] Instance TypeScriptTextEditorState_inhabited
  : Inhabited TypeScriptTextEditorState :=
  populate (newTypeScriptTextEditorState (mkTypeScriptTextEditor 0)).

(** The methods the coordinator calls on a state object. *)
Inductive StateMethod :=
| MActivate
| MDeactivate
| MDispose
| MToggleAutoComplete
| MConfirmAutoCompleteItem
| MSelectNextAutoCompleteItem
| MSelectPreviousAutoCompleteItem
| MUpdateFromContentChange
| MUpdateFromCursorPosition (data : CursorPositionChangeEventData)
| MRemoveTooltip
| MSetTooltip (t : Tooltip)
| MGetDiagnosticForBufferPosition (p : Point).

(** What [TypeScriptWorkspace.ts] does not determine: the methods of the state
    class whose effect the spec leaves open, and the two position queries.
    The coordinator is verified for every choice of them. *)
Record Collaborators := mkCollaborators {
  updateFromContentChange : TypeScriptTextEditorState -> TypeScriptTextEditorState;
  updateFromCursorPosition :
    CursorPositionChangeEventData -> TypeScriptTextEditorState -> TypeScriptTextEditorState;
  confirmAutoCompleteItem : TypeScriptTextEditorState -> TypeScriptTextEditorState;
  selectNextAutoCompleteItem : TypeScriptTextEditorState -> TypeScriptTextEditorState;
  selectPreviousAutoCompleteItem : TypeScriptTextEditorState -> TypeScriptTextEditorState;
  getDiagnosticForBufferPosition : TypeScriptTextEditorState -> Point -> option Diagnostic;
  getQuickInfoForBufferPosition : TypeScriptTextEditor -> Point -> option QuickInfo
}.

Definition set_active (b : bool) (s : TypeScriptTextEditorState) :=
  {| owner := owner s; active := b; disposed := disposed s;
     autoCompleteInProgress := autoCompleteInProgress s; inError := inError s;
     tooltip := tooltip s; dataSlots := dataSlots s |}.

Definition set_disposed (b : bool) (s : TypeScriptTextEditorState) :=
  {| owner := owner s; active := active s; disposed := b;
     autoCompleteInProgress := autoCompleteInProgress s; inError := inError s;
     tooltip := tooltip s; dataSlots := dataSlots s |}.

Definition set_autoCompleteInProgress (b : bool) (s : TypeScriptTextEditorState) :=
  {| owner := owner s; active := active s; disposed := disposed s;
     autoCompleteInProgress := b; inError := inError s;
     tooltip := tooltip s; dataSlots := dataSlots s |}.

Definition set_tooltip (t : option Tooltip) (s : TypeScriptTextEditorState) :=
  {| owner := owner s; active := active s; disposed := disposed s;
     autoCompleteInProgress := autoCompleteInProgress s; inError := inError s;
     tooltip := t; dataSlots := dataSlots s |}.

Definition set_dataSlot (key : string) (b : bool) (s : TypeScriptTextEditorState) :=
  {| owner := owner s; active := active s; disposed := disposed s;
     autoCompleteInProgress := autoCompleteInProgress s; inError := inError s;
     tooltip := tooltip s; dataSlots := <[key := b]> (dataSlots s) |}.

(** [<boolean>state.dataSlots[key]] used as a condition: a slot that was never
    written is [undefined], which is falsy. *)
Definition dataSlot (key : string) (s : TypeScriptTextEditorState) : bool :=
  default false (dataSlots s !! key).

(** Modelled from the spec: the methods of the missing state class that the
    spec describes.  [activate] and [deactivate] mark the state, [dispose]
    marks it disposed, [toggleAutoComplete] enters or leaves the auto-complete
    session, [setTooltip] and [removeTooltip] show and clear the tooltip; the
    diagnostic query changes nothing.  The others are taken from the
    collaborators. *)
Definition applyMethod (C : Collaborators) (m : StateMethod)
  (s : TypeScriptTextEditorState) : TypeScriptTextEditorState :=
  match m with
  | MActivate => set_active true s
  | MDeactivate => set_active false s
  | MDispose => set_disposed true s
  | MToggleAutoComplete => set_autoCompleteInProgress (negb (autoCompleteInProgress s)) s
  | MConfirmAutoCompleteItem => confirmAutoCompleteItem C s
  | MSelectNextAutoCompleteItem => selectNextAutoCompleteItem C s
  | MSelectPreviousAutoCompleteItem => selectPreviousAutoCompleteItem C s
  | MUpdateFromContentChange => updateFromContentChange C s
  | MUpdateFromCursorPosition d => updateFromCursorPosition C d s
  | MRemoveTooltip => set_tooltip None s
  | MSetTooltip t => set_tooltip (Some t) s
  | MGetDiagnosticForBufferPosition _ => s
  end.

(** ** The host: registrations, timers, the status bar *)

(** Disposables, and the timers of [setInterval], are named by a number. *)
Abbreviation handle := nat (only parsing).

Inductive EditorStream :=
| StreamContentsChanging
| StreamContentsChanged
| StreamMouseHoverPositionChanged
| StreamCursorPositionChanged
| StreamClosed.

(** Everything the coordinator acquires from the host and that stays alive
    until its disposable is disposed. *)
Inductive Resource :=
| OpenedSubscription
| ChangedSubscription
| EditorSubscription (editor : Z) (stream : EditorStream)
| CommandRegistration (target commandName : string)
| KeymapRegistration (source selector : string) (keys : gmap string string).

(** Modelled from the spec: the source of [TypeScriptDiagnosticStatusBar] is
    not at hand; the indicator mirrors the "in error" flag and is shown or
    hidden. *)
Record TypeScriptDiagnosticStatusBar := mkStatusBar {
  sbInError : bool;
  sbVisible : bool
}.

(** The closures handed to [executeAfterContentChange]. *)
Inductive Deferred :=
| DeferredToggleAutoComplete (state : option ref).

(** One [setInterval] timer together with what its callback closes over. *)
Record Timer := mkTimer {
  tmState : option ref;
  tmFunc : Deferred;
  intervalCount : Z;
  tmDelay : Z;
  tmLive : bool
}.

(** What a handler does to objects it does not own, in the order it does it. *)
Inductive Effect :=
| StateCall (s : ref) (m : StateMethod)
| AbortKeyBinding
| StopPropagation
| SetInterval (h : handle) (delay : Z)
| ClearInterval (h : handle).

Record World := mkWorld {
  _textEditorStates : gmap Z (option ref);
  _activeTextEditorState : option ref;
  _statusBar : option TypeScriptDiagnosticStatusBar;
  _disposables : list handle;
  heap : list TypeScriptTextEditorState;
  activeTextEditor : option TextEditor;
  statusBarElement : bool;
  leftTiles : list Z;
  resources : list (Resource * bool);
  timers : list Timer;
  trace : list Effect
}.

(** The host before the plugin is loaded: [focused] is the editor the
    workspace reports as active, [hasStatusBar] tells whether the document
    has a [status-bar] element. *)
Definition hostWorld (focused : option TextEditor) (hasStatusBar : bool) : World :=
  {| _textEditorStates := ∅; _activeTextEditorState := None; _statusBar := None;
     _disposables := []; heap := []; activeTextEditor := focused;
     statusBarElement := hasStatusBar; leftTiles := []; resources := [];
     timers := []; trace := [] |}.

Definition with_textEditorStates (f : gmap Z (option ref) -> gmap Z (option ref)) (w : World) :=
  {| _textEditorStates := f (_textEditorStates w);
     _activeTextEditorState := _activeTextEditorState w; _statusBar := _statusBar w;
     _disposables := _disposables w; heap := heap w;
     activeTextEditor := activeTextEditor w; statusBarElement := statusBarElement w;
     leftTiles := leftTiles w; resources := resources w; timers := timers w;
     trace := trace w |}.

Definition with_activeTextEditorState (a : option ref) (w : World) :=
  {| _textEditorStates := _textEditorStates w;
     _activeTextEditorState := a; _statusBar := _statusBar w;
     _disposables := _disposables w; heap := heap w;
     activeTextEditor := activeTextEditor w; statusBarElement := statusBarElement w;
     leftTiles := leftTiles w; resources := resources w; timers := timers w;
     trace := trace w |}.

Definition with_statusBar (sb : option TypeScriptDiagnosticStatusBar) (w : World) :=
  {| _textEditorStates := _textEditorStates w;
     _activeTextEditorState := _activeTextEditorState w; _statusBar := sb;
     _disposables := _disposables w; heap := heap w;
     activeTextEditor := activeTextEditor w; statusBarElement := statusBarElement w;
     leftTiles := leftTiles w; resources := resources w; timers := timers w;
     trace := trace w |}.

Definition with_disposables (d : list handle) (w : World) :=
  {| _textEditorStates := _textEditorStates w;
     _activeTextEditorState := _activeTextEditorState w; _statusBar := _statusBar w;
     _disposables := d; heap := heap w;
     activeTextEditor := activeTextEditor w; statusBarElement := statusBarElement w;
     leftTiles := leftTiles w; resources := resources w; timers := timers w;
     trace := trace w |}.

Definition with_heap (f : list TypeScriptTextEditorState -> list TypeScriptTextEditorState)
  (w : World) :=
  {| _textEditorStates := _textEditorStates w;
     _activeTextEditorState := _activeTextEditorState w; _statusBar := _statusBar w;
     _disposables := _disposables w; heap := f (heap w);
     activeTextEditor := activeTextEditor w; statusBarElement := statusBarElement w;
     leftTiles := leftTiles w; resources := resources w; timers := timers w;
     trace := trace w |}.

Definition with_activeTextEditor (e : option TextEditor) (w : World) :=
  {| _textEditorStates := _textEditorStates w;
     _activeTextEditorState := _activeTextEditorState w; _statusBar := _statusBar w;
     _disposables := _disposables w; heap := heap w;
     activeTextEditor := e; statusBarElement := statusBarElement w;
     leftTiles := leftTiles w; resources := resources w; timers := timers w;
     trace := trace w |}.

Definition with_statusBarElement (b : bool) (w : World) :=
  {| _textEditorStates := _textEditorStates w;
     _activeTextEditorState := _activeTextEditorState w; _statusBar := _statusBar w;
     _disposables := _disposables w; heap := heap w;
     activeTextEditor := activeTextEditor w; statusBarElement := b;
     leftTiles := leftTiles w; resources := resources w; timers := timers w;
     trace := trace w |}.

Definition with_leftTiles (f : list Z -> list Z) (w : World) :=
  {| _textEditorStates := _textEditorStates w;
     _activeTextEditorState := _activeTextEditorState w; _statusBar := _statusBar w;
     _disposables := _disposables w; heap := heap w;
     activeTextEditor := activeTextEditor w; statusBarElement := statusBarElement w;
     leftTiles := f (leftTiles w); resources := resources w; timers := timers w;
     trace := trace w |}.

Definition with_resources (f : list (Resource * bool) -> list (Resource * bool)) (w : World) :=
  {| _textEditorStates := _textEditorStates w;
     _activeTextEditorState := _activeTextEditorState w; _statusBar := _statusBar w;
     _disposables := _disposables w; heap := heap w;
     activeTextEditor := activeTextEditor w; statusBarElement := statusBarElement w;
     leftTiles := leftTiles w; resources := f (resources w); timers := timers w;
     trace := trace w |}.

Definition with_timers (f : list Timer -> list Timer) (w : World) :=
  {| _textEditorStates := _textEditorStates w;
     _activeTextEditorState := _activeTextEditorState w; _statusBar := _statusBar w;
     _disposables := _disposables w; heap := heap w;
     activeTextEditor := activeTextEditor w; statusBarElement := statusBarElement w;
     leftTiles := leftTiles w; resources := resources w; timers := f (timers w);
     trace := trace w |}.

Definition with_trace (f : list Effect -> list Effect) (w : World) :=
  {| _textEditorStates := _textEditorStates w;
     _activeTextEditorState := _activeTextEditorState w; _statusBar := _statusBar w;
     _disposables := _disposables w; heap := heap w;
     activeTextEditor := activeTextEditor w; statusBarElement := statusBarElement w;
     leftTiles := leftTiles w; resources := resources w; timers := timers w;
     trace := f (trace w) |}.

(** ** Handlers as computations that may throw *)

Inductive JsError := TypeError.

Inductive Completion (A : Type) :=
| Normal (a : A)
| Throw (e : JsError).
Arguments Normal {A} a.
Arguments Throw {A} e.

(** A handler maps the world to a completion and the world it leaves behind;
    a throw keeps the effects that came before it. *)
Definition M (A : Type) : Type := World -> Completion A * World.

Definition ret {A} (a : A) : M A := fun w => (Normal a, w).

Definition throw {A} (e : JsError) : M A := fun w => (Throw e, w).

Definition bind {A B} (c : M A) (k : A -> M B) : M B :=
  fun w =>
    match c w with
    | (Normal a, w') => k a w'
    | (Throw e, w') => (Throw e, w')
    end.

#[global] Instance M_ret : MRet M := @ret.
#[global] Instance M_bind : MBind M := fun A B k c => bind c k.

Definition gets {A} (f : World -> A) : M A := fun w => (Normal (f w), w).

Definition modify (f : World -> World) : M unit := fun w => (Normal tt, f w).

Definition emit (e : Effect) : M unit := modify (with_trace (fun t => t ++ [e])).

(** The world a computation leaves behind, and whether it returned. *)
Definition exec {A} (c : M A) (w : World) : World := snd (c w).

Definition returns {A} (c : M A) (w : World) : bool :=
  match fst (c w) with Normal _ => true | Throw _ => false end.

Definition throws {A} (c : M A) (w : World) : bool := negb (returns c w).

(** [P] holds after [c] whenever it holds before, whether [c] returns or
    throws. *)
Definition preserved {A} (P : World -> Prop) (c : M A) : Prop :=
  forall w, P w -> P (exec c w).

(** ** Access to state objects *)

(** [this._textEditorStates[id]]: an identifier that was never written and one
    whose entry holds [undefined] both read as [undefined]. *)
Definition textEditorState (editorId : Z) : M (option ref) :=
  gets (fun w => mjoin (_textEditorStates w !! editorId)).

(** An identifier is registered when its entry holds a state. *)
Definition registered (w : World) (editorId : Z) : bool :=
  bool_decide (is_Some (mjoin (_textEditorStates w !! editorId))).

(** Using a value that may be [undefined] as an object. *)
Definition deref {A} (v : option A) : M A :=
  match v with
  | Some a => ret a
  | None => throw TypeError
  end.

(** [state.m(...)]. *)
Definition call (C : Collaborators) (state : option ref) (m : StateMethod) : M unit :=
  s ← deref state;
  emit (StateCall s m);;
  modify (with_heap (alter (applyMethod C m) s)).

(** [state.f]. *)
Definition field {A} (state : option ref) (f : TypeScriptTextEditorState -> A) : M A :=
  s ← deref state;
  gets (fun w => f (heap w !!! s)).

(** [state.dataSlots[key] = b]. *)
Definition assignDataSlot (state : option ref) (key : string) (b : bool) : M unit :=
  s ← deref state;
  modify (with_heap (alter (set_dataSlot key b) s)).

(** [new TypeScriptTextEditorState(editor)]: a fresh object of the store. *)
Definition allocate (st : TypeScriptTextEditorState) : M ref :=
  fun w => (Normal (length (heap w)), with_heap (fun h => h ++ [st]) w).

(** Acquiring a resource of the host gives back its disposable. *)
Definition acquire (r : Resource) : M handle :=
  fun w => (Normal (length (resources w)), with_resources (fun l => l ++ [(r, true)]) w).

(** Disposing of a disposable releases its resource. *)
Definition release (h : handle) : M unit :=
  modify (with_resources (alter (fun p => (fst p, false)) h)).

Definition live (w : World) (h : handle) : bool :=
  match resources w !! h with
  | Some (_, b) => b
  | None => false
  end.

Definition set_intervalCount (n : Z) (t : Timer) : Timer :=
  {| tmState := tmState t; tmFunc := tmFunc t; intervalCount := n;
     tmDelay := tmDelay t; tmLive := tmLive t |}.

Definition set_tmLive (b : bool) (t : Timer) : Timer :=
  {| tmState := tmState t; tmFunc := tmFunc t; intervalCount := intervalCount t;
     tmDelay := tmDelay t; tmLive := b |}.

Definition set_sbInError (b : bool) (sb : TypeScriptDiagnosticStatusBar) :=
  {| sbInError := b; sbVisible := sbVisible sb |}.

Definition set_sbVisible (b : bool) (sb : TypeScriptDiagnosticStatusBar) :=
  {| sbInError := sbInError sb; sbVisible := b |}.

(** Modelled from the spec: a status bar model that was just constructed is
    not in error and not shown. *)
Definition newTypeScriptDiagnosticStatusBar : TypeScriptDiagnosticStatusBar :=
  {| sbInError := false; sbVisible := false |}.

(** The commands the constructor registers: the toggle, and the four that go
    through the auto-complete guard. *)
Inductive GuardedCommand := Dismiss | Confirm | SelectNext | SelectPrevious.

Inductive Command := Toggle | Guarded (g : GuardedCommand).

Definition guardedName (g : GuardedCommand) : string :=
  match g with
  | Dismiss => "typescript-atomizer-autocomplete:dismiss"
  | Confirm => "typescript-atomizer-autocomplete:confirm"
  | SelectNext => "typescript-atomizer-autocomplete:select-next"
  | SelectPrevious => "typescript-atomizer-autocomplete:select-previous"
  end.

Definition commandName (c : Command) : string :=
  match c with
  | Toggle => "typescript-atomizer-autocomplete:toggle"
  | Guarded g => guardedName g
  end.

(** The selector of the toggle command and of the key map, and the selector
    the four guarded commands are registered with (the source leaves its
    bracket open). *)
Definition typeScriptSelector : string :=
  "atom-text-editor[data-grammar='source typescript']".

Definition guardedSelector : string :=
  "atom-text-editor[data-grammar='source typescript'".

Definition keys : gmap string string :=
  <["down"%string := guardedName SelectNext]>
    (<["up"%string := guardedName SelectPrevious]>
      (<["enter"%string := guardedName Confirm]>
        (<["tab"%string := guardedName Confirm]>
          (<["escape"%string := guardedName Dismiss]> ∅)))).

Definition maxIntervals : Z := 50.

(** What the host delivers to the coordinator: the values of the two streams
    given to the constructor, the values of the streams of each opened
    editor, a registered command, the firing of an interval timer, a change
    of the editor that [getActiveTextEditor] reports, and a change of the
    document: its [status-bar] element appears or goes away. *)
Inductive Event :=
| TypeScriptTextEditorOpened (e : TypeScriptTextEditor)
| TextEditorChanged (e : option TextEditor)
| ContentsChanging (e : TypeScriptTextEditor)
| ContentsChanged (e : TypeScriptTextEditor)
| MouseHoverPositionChanged (e : TypeScriptTextEditor) (p : option Point)
| CursorPositionChanged (e : TypeScriptTextEditor) (d : CursorPositionChangeEventData)
| Closed (e : TypeScriptTextEditor)
| CommandFired (c : Command)
| ActiveTextEditorSet (e : option TextEditor)
| IntervalElapsed (h : handle)
| StatusBarElementSet (present : bool).

Section Coordinator.

Context (C : Collaborators).

(** ** Construction and disposal *)

(** [this._disposables.push(d)]. *)
Definition push (h : handle) : M unit :=
  modify (fun w => with_disposables (_disposables w ++ [h]) w).

(** Modelled from the spec: [CompositeDisposable] belongs to the
    [atomizer-core] package, whose source is not at hand; disposing of it
    disposes of every disposable pushed into it. *)
Fixpoint CompositeDisposable_dispose (ds : list handle) : M unit :=
  match ds with
  | [] => ret tt
  | h :: ds' => release h;; CompositeDisposable_dispose ds'
  end.

(** The constructor (lines 38-81).  A field that is never assigned, like
    [_activeTextEditorState], is [undefined]; the disposables of the two
    subscriptions are dropped, those of the commands and of the key map are
    pushed into [_disposables]. *)
Definition TypeScriptWorkspace_new : M unit :=
  modify (with_textEditorStates (fun _ => ∅));;
  modify (with_activeTextEditorState None);;
  modify (with_statusBar None);;
  acquire OpenedSubscription;;
  acquire ChangedSubscription;;
  modify (with_disposables []);;
  h ← acquire (CommandRegistration typeScriptSelector (commandName Toggle)); push h;;
  h ← acquire (CommandRegistration guardedSelector (guardedName Dismiss)); push h;;
  h ← acquire (CommandRegistration guardedSelector (guardedName Confirm)); push h;;
  h ← acquire (CommandRegistration guardedSelector (guardedName SelectNext)); push h;;
  h ← acquire (CommandRegistration guardedSelector (guardedName SelectPrevious)); push h;;
  h ← acquire (KeymapRegistration "TypeScriptWorkspace" typeScriptSelector keys); push h.

(** [dispose] (lines 86-89). *)
Definition dispose : M unit :=
  ds ← gets _disposables;
  CompositeDisposable_dispose ds.

(** ** The status bar *)

(** [getStatusBar] (lines 293-314): the model is made on first use and kept;
    its view is added as a left tile of priority -100 when the document has a
    [status-bar] element.  The model is read back from [_statusBar] by the
    callers. *)
Definition getStatusBar : M unit :=
  sb ← gets _statusBar;
  match sb with
  | Some _ => ret tt
  | None =>
      modify (with_statusBar (Some newTypeScriptDiagnosticStatusBar));;
      statusBar ← gets statusBarElement;
      if statusBar : bool
      then modify (with_leftTiles (fun l => l ++ [-100]))
      else ret tt
  end.

Definition statusBar_hide : M unit :=
  modify (fun w => with_statusBar (set_sbVisible false <$> _statusBar w) w).

Definition statusBar_show : M unit :=
  modify (fun w => with_statusBar (set_sbVisible true <$> _statusBar w) w).

(** [updateStatusBar] (lines 279-286). *)
Definition updateStatusBar (state : option ref) : M unit :=
  getStatusBar;;
  e ← field state inError;
  modify (fun w => with_statusBar (set_sbInError e <$> _statusBar w) w);;
  statusBar_show.

(** ** Handlers of the streams *)

(** Lines 96-117. *)
Definition onTypeScriptTextEditorOpened (typescriptTextEditor : TypeScriptTextEditor)
  : M unit :=
  state ← allocate (newTypeScriptTextEditorState typescriptTextEditor);
  assignDataSlot (Some state) "contents-changing" false;;
  modify (with_textEditorStates (<[tsId typescriptTextEditor := Some state]>));;
  acquire (EditorSubscription (tsId typescriptTextEditor) StreamContentsChanging);;
  acquire (EditorSubscription (tsId typescriptTextEditor) StreamContentsChanged);;
  acquire (EditorSubscription (tsId typescriptTextEditor) StreamMouseHoverPositionChanged);;
  acquire (EditorSubscription (tsId typescriptTextEditor) StreamCursorPositionChanged);;
  acquire (EditorSubscription (tsId typescriptTextEditor) StreamClosed);;
  ret tt.

(** Lines 124-143.  The stream carries an editor or [undefined]. *)
Definition onTextEditorChanged (textEditor : option TextEditor) : M unit :=
  getStatusBar;;
  match textEditor with
  | None => statusBar_hide
  | Some ed =>
      if negb (String.eqb (grammarName ed) "TypeScript")
      then statusBar_hide
      else
        previous ← gets _activeTextEditorState;
        match previous with
        | Some _ => call C previous MDeactivate
        | None => ret tt
        end;;
        state ← textEditorState (id ed);
        modify (with_activeTextEditorState state);;
        call C state MActivate;;
        updateStatusBar state
  end.

(** Lines 150-155. *)
Definition onTypeScriptTextEditorContentsChanging (typescriptTextEditor : TypeScriptTextEditor)
  : M unit :=
  state ← textEditorState (tsId typescriptTextEditor);
  assignDataSlot state "contents-changing" true.

(** Lines 162-170. *)
Definition onTypeScriptTextEditorContentsChanged (typescriptTextEditor : TypeScriptTextEditor)
  : M unit :=
  state ← textEditorState (tsId typescriptTextEditor);
  assignDataSlot state "contents-changing" false;;
  call C state MUpdateFromContentChange;;
  updateStatusBar state.

(** Lines 172-200.  The position is a [Point] or a falsy value. *)
Definition onMouseHoverPositionChanged (typescriptTextEditor : TypeScriptTextEditor)
  (bufferPosition : option Point) : M unit :=
  state ← textEditorState (tsId typescriptTextEditor);
  match bufferPosition with
  | None => call C state MRemoveTooltip
  | Some p =>
      inProgress ← field state autoCompleteInProgress;
      if inProgress : bool then ret tt
      else
        call C state (MGetDiagnosticForBufferPosition p);;
        diagnostic ← field state (fun st => getDiagnosticForBufferPosition C st p);
        match diagnostic with
        | Some d => call C state (MSetTooltip (TooltipMessage (messageText d) p))
        | None =>
            match getQuickInfoForBufferPosition C typescriptTextEditor p with
            | Some info => call C state (MSetTooltip (TooltipQuickInfo info p))
            | None => call C state MRemoveTooltip
            end
        end
  end.

(** Lines 207-212. *)
Definition onCursorPositionChanged (typescriptTextEditor : TypeScriptTextEditor)
  (eventData : CursorPositionChangeEventData) : M unit :=
  state ← textEditorState (tsId typescriptTextEditor);
  call C state (MUpdateFromCursorPosition eventData).

(** Lines 219-226: the entry is assigned [undefined], the key stays. *)
Definition onTypeScriptTextEditorClosed (typescriptTextEditor : TypeScriptTextEditor)
  : M unit :=
  state ← textEditorState (tsId typescriptTextEditor);
  call C state MDispose;;
  modify (with_textEditorStates (<[tsId typescriptTextEditor := None]>)).

(** ** The deferred toggle *)

Definition runDeferred (func : Deferred) : M unit :=
  match func with
  | DeferredToggleAutoComplete state => call C state MToggleAutoComplete
  end.

(** The body of the [if] inside the interval callback. *)
Definition fire (interval : handle) (t : Timer) : M unit :=
  runDeferred (tmFunc t);;
  assignDataSlot (tmState t) "contents-changing" false;;
  emit (ClearInterval interval);;
  modify (with_timers (alter (set_tmLive false) interval)).

(** One run of the callback given to [setInterval]; the host does not run the
    callback of a timer that was cleared.  [intervalCount++] is only evaluated
    when the flag is set, and the comparison sees its value before the
    increment. *)
Definition intervalCallback (interval : handle) : M unit :=
  timer ← gets (fun w => timers w !! interval);
  match timer with
  | Some t =>
      if tmLive t then
        changing ← field (tmState t) (dataSlot "contents-changing");
        if negb changing then fire interval t
        else
          modify (with_timers (alter (set_intervalCount (intervalCount t + 1)) interval));;
          if intervalCount t >? maxIntervals then fire interval t else ret tt
      else ret tt
  | None => ret tt
  end.

(** [executeAfterContentChange] (lines 323-338): starts a timer of period 2
    whose callback closes over the state, the function and a count of 0. *)
Definition executeAfterContentChange (state : option ref) (func : Deferred) : M unit :=
  interval ← gets (fun w => length (timers w));
  modify (with_timers (fun l => l ++ [mkTimer state func 0 2 true]));;
  emit (SetInterval interval 2).

(** ** Handlers of the commands *)

(** [this._workspace.getActiveTextEditor()]. *)
Definition getActiveTextEditor : M (option TextEditor) := gets activeTextEditor.

(** Lines 235-248.  The two calls on the HTML event are recorded as
    effects. *)
Definition withAutoCompleteInProgress (callback : option ref -> M unit) : M unit :=
  focused ← getActiveTextEditor;
  ed ← deref focused;
  state ← textEditorState (id ed);
  inProgress ← field state autoCompleteInProgress;
  if negb inProgress then emit AbortKeyBinding
  else
    emit StopPropagation;;
    callback state.

(** Lines 253-271. *)
Definition onToggleAutoComplete : M unit :=
  textEditor ← getActiveTextEditor;
  ed ← deref textEditor;
  if negb (String.eqb (grammarName ed) "TypeScript") then emit AbortKeyBinding
  else
    emit StopPropagation;;
    state ← textEditorState (id ed);
    inProgress ← field state autoCompleteInProgress;
    if inProgress : bool then call C state MToggleAutoComplete
    else executeAfterContentChange state (DeferredToggleAutoComplete state).

(** The callbacks the constructor passes to the guard. *)
Definition guardedCallback (g : GuardedCommand) (state : option ref) : M unit :=
  match g with
  | Dismiss => call C state MToggleAutoComplete
  | Confirm => call C state MConfirmAutoCompleteItem
  | SelectNext => call C state MSelectNextAutoCompleteItem
  | SelectPrevious => call C state MSelectPreviousAutoCompleteItem
  end.

Definition onCommand (c : Command) : M unit :=
  match c with
  | Toggle => onToggleAutoComplete
  | Guarded g => withAutoCompleteInProgress (guardedCallback g)
  end.

(** ** The event loop *)

Definition handleEvent (ev : Event) : M unit :=
  match ev with
  | TypeScriptTextEditorOpened e => onTypeScriptTextEditorOpened e
  | TextEditorChanged e => onTextEditorChanged e
  | ContentsChanging e => onTypeScriptTextEditorContentsChanging e
  | ContentsChanged e => onTypeScriptTextEditorContentsChanged e
  | MouseHoverPositionChanged e p => onMouseHoverPositionChanged e p
  | CursorPositionChanged e d => onCursorPositionChanged e d
  | Closed e => onTypeScriptTextEditorClosed e
  | CommandFired c => onCommand c
  | ActiveTextEditorSet e => modify (with_activeTextEditor e)
  | IntervalElapsed h => intervalCallback h
  | StatusBarElementSet present => modify (with_statusBarElement present)
  end.

(** Handlers run to completion one after the other; an event whose handler
    throws leaves its partial effects and the next event is processed. *)
Definition step (w : World) (ev : Event) : World := exec (handleEvent ev) w.

Definition run (evs : list Event) (w : World) : World := foldl step w evs.

(** The coordinator right after construction. *)
Definition initial (focused : option TextEditor) (hasStatusBar : bool) : World :=
  exec TypeScriptWorkspace_new (hostWorld focused hasStatusBar).

(** ** Observations used by the properties *)

(** The state object a reference points to. *)
Definition stateAt (w : World) (s : ref) : TypeScriptTextEditorState := heap w !!! s.

(** The references of the states that are marked active. *)
Definition activeStates (w : World) : list ref :=
  filter (fun s => active (stateAt w s) = true) (seq 0 (length (heap w))).

(** The state method calls among the effects, oldest first. *)
Definition stateCalls (t : list Effect) : list (ref * StateMethod) :=
  omap (fun e => match e with StateCall s m => Some (s, m) | _ => None end) t.

(** The condition of the guard of [onTextEditorChanged]: an editor is there
    and its grammar is the TypeScript one. *)
Definition recognized (textEditor : option TextEditor) : bool :=
  match textEditor with
  | None => false
  | Some ed => String.eqb (grammarName ed) "TypeScript"
  end.

(** [n] runs in a row of the callback of timer [interval], with no other
    event in between: nothing else writes the "contents-changing" flag. *)
Definition poll (interval : handle) (n : nat) (w : World) : World :=
  run (repeat (IntervalElapsed interval) n) w.

(** The time a timer has been running when its callback runs for the [n]th
    time. *)
Definition elapsed (t : Timer) (n : nat) : Z := tmDelay t * Z.of_nat n.

(** Command and key-binding registrations, as opposed to subscriptions. *)
Definition isRegistration (r : Resource) : bool :=
  match r with
  | CommandRegistration _ _ | KeymapRegistration _ _ _ => true
  | _ => false
  end.

(** What was acquired from the host between the worlds [w0] and [w], with
    its state in [w]. *)
Definition acquiredSince (w0 w : World) : list (Resource * bool) :=
  drop (length (resources w0)) (resources w).

(** Every state of the store [h] that is marked active is the one [a]
    points to. *)
Definition onlyActive (h : list TypeScriptTextEditorState) (a : option ref) : Prop :=
  forall s st, h !! s = Some st -> active st = true -> a = Some s.

Definition onlyActivePointer (w : World) : Prop :=
  onlyActive (heap w) (_activeTextEditorState w).

(** Every state held by the mapping is an object of the store. *)
Definition registeredAllocated (w : World) : Prop :=
  forall editorId s,
    _textEditorStates w !! editorId = Some (Some s) -> (s < length (heap w))%nat.

(** The entry of [editorId] holds the state [s], an object of the store. *)
Definition holdsState (editorId : Z) (s : ref) (w : World) : Prop :=
  _textEditorStates w !! editorId = Some (Some s) /\ (s < length (heap w))%nat.

(** The events that write the mapping entry of the identifier [editorId]. *)
Definition writesEntry (editorId : Z) (ev : Event) : bool :=
  match ev with
  | TypeScriptTextEditorOpened e | Closed e => bool_decide (tsId e = editorId)
  | _ => false
  end.

(** The effects a handler adds to the trace. *)
Definition effectsOf {A} (c : M A) (w : World) : list Effect :=
  drop (length (trace w)) (trace (exec c w)).

End Coordinator.

(** ** Sample collaborators and editors (used to run the model) *)

(** Collaborators whose open methods change nothing; a diagnostic sits on
    row 1, quick-info is available on rows 1 and 2. *)
Definition sampleCollaborators : Collaborators :=
  {| updateFromContentChange := fun s => s;
     updateFromCursorPosition := fun _ s => s;
     confirmAutoCompleteItem := set_autoCompleteInProgress false;
     selectNextAutoCompleteItem := fun s => s;
     selectPreviousAutoCompleteItem := fun s => s;
     getDiagnosticForBufferPosition := fun _ p =>
       if row p =? 1 then Some (mkDiagnostic "Type 'string' is not assignable") else None;
     getQuickInfoForBufferPosition := fun _ p =>
       if (row p =? 1) || (row p =? 2) then Some (mkQuickInfo "let x: number") else None |}.

(** The assumption on the methods left open that the single-active-state
    invariant needs: only [activate] and [deactivate]
    change the active mark of a state. *)
Definition keepsActiveMark (C : Collaborators) : Prop :=
  (forall st, active (updateFromContentChange C st) = active st) /\
  (forall d st, active (updateFromCursorPosition C d st) = active st) /\
  (forall st, active (confirmAutoCompleteItem C st) = active st) /\
  (forall st, active (selectNextAutoCompleteItem C st) = active st) /\
  (forall st, active (selectPreviousAutoCompleteItem C st) = active st).

Definition E1 : TypeScriptTextEditor := mkTypeScriptTextEditor 1.
Definition E2 : TypeScriptTextEditor := mkTypeScriptTextEditor 2.
Definition focusE1 : TextEditor := mkTextEditor 1 "TypeScript".
Definition focusE2 : TextEditor := mkTextEditor 2 "TypeScript".
Definition focusOther : TextEditor := mkTextEditor 7 "JavaScript".

(** Both editors are opened and the first one has the focus. *)
Definition sampleWorld : World :=
  run sampleCollaborators
    [ TypeScriptTextEditorOpened E1; TypeScriptTextEditorOpened E2;
      ActiveTextEditorSet (Some focusE1); TextEditorChanged (Some focusE1) ]
    (initial None true).

(** The same, with an auto-complete session entered through the toggle
    command and its timer. *)
Definition sampleSession : World :=
  run sampleCollaborators [ CommandFired Toggle; IntervalElapsed 0%nat ] sampleWorld.

(** The same as [sampleWorld], while the contents of the first editor are
    changing. *)
Definition sampleChanging : World :=
  run sampleCollaborators [ ContentsChanging E1 ] sampleWorld.

(** The view of the status bar has been attached at most once, and only
    with the model in place. *)
Definition attachedOnce (w : World) : Prop :=
  leftTiles w = [] \/ (leftTiles w = [-100] /\ is_Some (_statusBar w)).

(** The model of the status bar exists and the tiles are [tiles]. *)
Definition modelWithTiles (tiles : list Z) (w : World) : Prop :=
  is_Some (_statusBar w) /\ leftTiles w = tiles.

(** The editor whose stream an event comes from, for the five streams the
    coordinator subscribes to when an editor is opened. *)
Definition editorOf (ev : Event) : option TypeScriptTextEditor :=
  match ev with
  | ContentsChanging e | ContentsChanged e | MouseHoverPositionChanged e _
  | CursorPositionChanged e _ | Closed e => Some e
  | _ => None
  end.

(** No state object is registered under two identifiers. *)
Definition statesDistinct (w : World) : Prop :=
  forall id1 id2 s,
    _textEditorStates w !! id1 = Some (Some s) ->
    _textEditorStates w !! id2 = Some (Some s) ->
    id1 = id2.

(** Every timer closes over a state object and toggles that same object. *)
Definition timersClosed (w : World) : Prop :=
  forall h t, timers w !! h = Some t ->
    exists s, tmState t = Some s /\ tmFunc t = DeferredToggleAutoComplete (Some s).

(** What the constructor acquires, in order; [released] tells whether the
    disposables pushed into [_disposables] have been disposed. *)
Definition constructorResources (released : bool) : list (Resource * bool) :=
  [ (OpenedSubscription, true);
    (ChangedSubscription, true);
    (CommandRegistration typeScriptSelector (commandName Toggle), negb released);
    (CommandRegistration guardedSelector (guardedName Dismiss), negb released);
    (CommandRegistration guardedSelector (guardedName Confirm), negb released);
    (CommandRegistration guardedSelector (guardedName SelectNext), negb released);
    (CommandRegistration guardedSelector (guardedName SelectPrevious), negb released);
    (KeymapRegistration "TypeScriptWorkspace" typeScriptSelector keys, negb released) ].

(** The five live subscriptions taken when an editor is opened. *)
Definition editorSubscriptions (editorId : Z) : list (Resource * bool) :=
  [ (EditorSubscription editorId StreamContentsChanging, true);
    (EditorSubscription editorId StreamContentsChanged, true);
    (EditorSubscription editorId StreamMouseHoverPositionChanged, true);
    (EditorSubscription editorId StreamCursorPositionChanged, true);
    (EditorSubscription editorId StreamClosed, true) ].

(** The identifiers of the opened events of a sequence, in order. *)
Definition openedEditors (evs : list Event) : list Z :=
  omap (fun ev => match ev with
                  | TypeScriptTextEditorOpened e => Some (tsId e)
                  | _ => None
                  end) evs.

(** * The build script

    A shallow embedding of [gruntfile.js]: the two helper functions and the
    exported function that configures grunt.  The script reads
    [package.json], the platform and the environment; they are arguments
    here. *)

Module Gruntfile.

(** What the script reads of [package.json].  A field that is missing is
    [undefined]; [dependencies] lists the keys of the object in the order
    [for ... in] enumerates them, with their version ranges. *)
Record Package := mkPackage {
  name : option string;
  version : option string;
  dependencies : option (list (string * string))
}.

(** What the script reads of [process]. *)
Record Process := mkProcess {
  platform : string;
  userprofile : option string
}.

(** A string or [undefined] as an operand of [+] with a string. *)
Definition toString (v : option string) : string := default "undefined"%string v.

Inductive Outcome (A : Type) :=
| Value (a : A)
| ErrorThrown (message : string).
Arguments Value {A} a.
Arguments ErrorThrown {A} message.

(** Lines 3-9. *)
Definition getAtomRootPackagesPath (process : Process) (package : Package)
  : Outcome string :=
  if String.eqb (platform process) "win32"
  then Value (toString (userprofile process) ++ "/.atom/packages/"
              ++ toString (name package) ++ "/")%string
  else ErrorThrown "Unsupported platform...".

(** The loop of lines 14-16, one [push] for each key. *)
Fixpoint pushGlobs (dependencyNames : list string) (globs : list string) : list string :=
  match dependencyNames with
  | [] => globs
  | dependencyName :: rest =>
      pushGlobs rest (globs ++ [("node_modules/" ++ dependencyName ++ "/**")%string])
  end.

(** Lines 11-19; [for ... in] over [undefined] runs no iteration. *)
Definition getPluginPackagableNodeModuleGlobs (package : Package) : list string :=
  pushGlobs (default [] (map fst <$> dependencies package)) [].

Record TypeScriptOptions := mkTypeScriptOptions {
  module : string;
  target : string;
  sourceMap : bool
}.

Record CompressTarget := mkCompressTarget {
  mode : string;
  archive : string;
  compressSrc : string
}.

(** The object given to [grunt.initConfig] (lines 30-115). *)
Record Config := mkConfig {
  typescriptFiles : list string;
  pluginPackageFiles : list string;
  typescriptBuildSrc : string;
  typescriptBuildOptions : TypeScriptOptions;
  jasmineNodeSpecs : list string;
  cleanPluginOutputSrc : list string;
  cleanPluginOutputForce : bool;
  copyPluginOutputSrc : string;
  copyPluginOutputDest : string;
  compressZip : CompressTarget;
  compressTar : CompressTarget
}.

(** What the script has done to grunt. *)
Record Grunt := mkGrunt {
  npmTasks : list string;
  config : option Config;
  tasks : list (string * list string)
}.

Definition loadNpmTasks (task : string) (g : Grunt) : Grunt :=
  {| npmTasks := npmTasks g ++ [task]; config := config g; tasks := tasks g |}.

Definition initConfig (c : Config) (g : Grunt) : Grunt :=
  {| npmTasks := npmTasks g; config := Some c; tasks := tasks g |}.

Definition registerTask (task : string) (subtasks : list string) (g : Grunt) : Grunt :=
  {| npmTasks := npmTasks g; config := config g; tasks := tasks g ++ [(task, subtasks)] |}.

Definition packagedFiles : list string :=
  [ "grammars/*"; "keymaps/*"; "stylesheets/*"; "images/**"; "lib/**/*.js";
    "lib/TypeScript/**"; "lib/Bootstrap/**"; "spec/**/*.js"; "package.json";
    "README.md" ]%string.

(** The object literal of lines 30-115: its properties are evaluated in
    order, and the first call of [getAtomRootPackagesPath] that throws ends
    the evaluation. *)
Definition configObject (process : Process) (package : Package) : Outcome Config :=
  let files := packagedFiles ++ getPluginPackagableNodeModuleGlobs package in
  match getAtomRootPackagesPath process package with
  | ErrorThrown m => ErrorThrown m
  | Value cleaned =>
      match getAtomRootPackagesPath process package with
      | ErrorThrown m => ErrorThrown m
      | Value dest =>
          Value
            {| typescriptFiles :=
                 [ "**/*.ts"; "!node_modules/**/*"; "!typings/**/*"; "!*.d.ts" ]%string;
               pluginPackageFiles := files;
               typescriptBuildSrc := "<%=typescriptFiles %>";
               typescriptBuildOptions := mkTypeScriptOptions "commonjs" "ES5" true;
               jasmineNodeSpecs := [ "spec/"%string ];
               cleanPluginOutputSrc := [ cleaned ];
               cleanPluginOutputForce := true;
               copyPluginOutputSrc := "<%=pluginPackageFiles %>";
               copyPluginOutputDest := dest;
               compressZip :=
                 mkCompressTarget "zip"
                   (toString (name package) ++ "-" ++ toString (version package) ++ ".zip")
                   "<%=pluginPackageFiles %>";
               compressTar :=
                 mkCompressTarget "tar"
                   (toString (name package) ++ "-" ++ toString (version package) ++ ".tar")
                   "<%=pluginPackageFiles %>" |}
      end
  end.

(** [module.exports] (lines 21-122): the world grunt is left in, and whether
    the function returned. *)
Definition exports (process : Process) (package : Package) (g : Grunt)
  : Outcome unit * Grunt :=
  let g1 :=
    loadNpmTasks "grunt-jasmine-node"
      (loadNpmTasks "grunt-contrib-compress"
         (loadNpmTasks "grunt-contrib-clean"
            (loadNpmTasks "grunt-contrib-copy"
               (loadNpmTasks "grunt-typescript" g)))) in
  match configObject process package with
  | ErrorThrown m => (ErrorThrown m, g1)
  | Value c =>
      (Value tt,
       registerTask "package" [ "compress:zip"%string ]
         (registerTask "deploy" [ "clean:pluginOutput"; "copy:pluginOutput" ]%string
            (registerTask "test" [ "jasmine_node"%string ]
               (registerTask "build" [ "typescript:build"%string ]
                  (initConfig c g1)))))
  end.

End Gruntfile.

(** The same as [sampleWorld], after a toggle command: its timer is
    polling. *)
Definition sampleDeferred : World :=
  run sampleCollaborators [ CommandFired Toggle ] sampleWorld.

(** A package with two dependencies, and a process on either platform. *)
Definition samplePackage : Gruntfile.Package :=
  Gruntfile.mkPackage (Some "typescript-atomizer"%string) (Some "0.1.0"%string)
    (Some [ ("rx", "2.3.x"); ("atomizer-core", "0.1.x") ]%string).

Definition sampleWindows : Gruntfile.Process :=
  Gruntfile.mkProcess "win32" (Some "C:/Users/dev"%string).

Definition sampleLinux : Gruntfile.Process :=
  Gruntfile.mkProcess "linux" None.

Definition emptyGrunt : Gruntfile.Grunt := Gruntfile.mkGrunt [] None [].

(** * Properties *)

Ltac mrun :=
  unfold effectsOf, throws, returns, exec, mbind, M_bind, bind, gets, modify,
    emit, mret, M_ret, ret, throw; simpl.

Ltac unfold_handlers :=
  unfold onTextEditorChanged, onTypeScriptTextEditorOpened,
    onTypeScriptTextEditorContentsChanging, onTypeScriptTextEditorContentsChanged,
    onMouseHoverPositionChanged, onCursorPositionChanged,
    onTypeScriptTextEditorClosed, withAutoCompleteInProgress,
    onToggleAutoComplete, executeAfterContentChange, updateStatusBar,
    getStatusBar, statusBar_hide, statusBar_show, getActiveTextEditor,
    textEditorState, guardedCallback, call, field, assignDataSlot, deref.

Section Properties.

Context (C : Collaborators).

(** ** The guard of the auto-complete commands *)

(** C8: the auto-complete guard, run while the focused editor's state is
    registered.  With no auto-complete session on that state the guard aborts
    the key binding and ends there, whatever the callback is; with a session
    it stops the propagation of the event and then runs the callback once, on
    that state. *)
Theorem withAutoCompleteInProgress_guard
  (callback : option ref -> M unit) (w : World) (ed : TextEditor) (s : ref) :
  activeTextEditor w = Some ed ->
  mjoin (_textEditorStates w !! id ed) = Some s ->
  withAutoCompleteInProgress callback w =
    if autoCompleteInProgress (stateAt w s)
    then callback (Some s) (exec (emit StopPropagation) w)
    else (Normal tt, exec (emit AbortKeyBinding) w).
Proof.
  intros Hfocus Hstate. unfold_handlers. mrun.
  rewrite Hfocus. simpl. rewrite Hstate. simpl. unfold stateAt.
  destruct (autoCompleteInProgress (heap w !!! s)); reflexivity.
Qed.

(** C10 (amended): with a focused editor, each of the four guarded commands
    throws exactly when the identifier of that editor is not registered, and
    so does the toggle command on an editor of the recognized language: the
    looked-up state is used with no check that it is there.  On an editor of
    another language the toggle command never looks the state up: it aborts
    the key binding and returns, registered or not. *)
Theorem commands_throw_iff_unregistered (w : World) (ed : TextEditor) :
  activeTextEditor w = Some ed ->
  (forall g : GuardedCommand,
      throws (onCommand C (Guarded g)) w = negb (registered w (id ed))) /\
  (recognized (Some ed) = true ->
      throws (onCommand C Toggle) w = negb (registered w (id ed))) /\
  (recognized (Some ed) = false ->
      throws (onCommand C Toggle) w = false /\
      effectsOf (onCommand C Toggle) w = [AbortKeyBinding] /\
      heap (exec (onCommand C Toggle) w) = heap w).
Proof.
  intros Hfocus. unfold registered. split; [|split].
  - intros g. unfold onCommand. unfold_handlers. mrun.
    rewrite Hfocus. simpl.
    destruct (mjoin (_textEditorStates w !! id ed)) as [s|]; simpl; [|reflexivity].
    destruct (autoCompleteInProgress (heap w !!! s)); simpl; [|reflexivity].
    destruct g; reflexivity.
  - intros Hrec. simpl in Hrec. unfold onCommand. unfold_handlers. mrun.
    rewrite Hfocus. simpl. rewrite Hrec. simpl.
    destruct (mjoin (_textEditorStates w !! id ed)) as [s|]; simpl; [|reflexivity].
    destruct (autoCompleteInProgress (heap w !!! s)); reflexivity.
  - intros Hrec. simpl in Hrec. unfold onCommand. unfold_handlers. mrun.
    rewrite Hfocus. simpl. rewrite Hrec. simpl.
    rewrite drop_app_length. repeat split; reflexivity.
Qed.

(** ** Focus changes *)

(** C1 (amended): a focus change whose editor is absent or not of the
    recognized language returns normally, leaves the status indicator hidden
    and touches nothing else: no method of a state object is called, the
    store and the pointer to the active state are what they were, so the
    states marked active before are the states marked active after. *)
Theorem onTextEditorChanged_unrecognized (w : World) (textEditor : option TextEditor) :
  recognized textEditor = false ->
  returns (onTextEditorChanged C textEditor) w = true /\
  sbVisible <$> _statusBar (exec (onTextEditorChanged C textEditor) w) = Some false /\
  effectsOf (onTextEditorChanged C textEditor) w = [] /\
  heap (exec (onTextEditorChanged C textEditor) w) = heap w /\
  _activeTextEditorState (exec (onTextEditorChanged C textEditor) w)
    = _activeTextEditorState w /\
  activeStates (exec (onTextEditorChanged C textEditor) w) = activeStates w.
Proof.
  intros Hrec. unfold activeStates, stateAt. unfold_handlers. mrun.
  assert (Hdrop : forall t : list Effect, drop (length t) t = []).
  { intros t. apply drop_all. }
  destruct textEditor as [ed|]; simpl in Hrec; [rewrite Hrec; simpl|];
    destruct (_statusBar w) as [sb|] eqn:Hsb; simpl;
    try destruct (statusBarElement w); simpl; rewrite ?Hsb, ?Hdrop; simpl;
    repeat split; reflexivity.
Qed.

(** ** Objects of the store *)

Lemma lookup_total_Some (h : list TypeScriptTextEditorState) (s : ref)
  (st : TypeScriptTextEditorState) :
  h !! s = Some st -> h !!! s = st.
Proof. apply list_lookup_total_correct. Qed.

Lemma alter_total_Some (f : TypeScriptTextEditorState -> TypeScriptTextEditorState)
  (h : list TypeScriptTextEditorState) (s : ref) (st : TypeScriptTextEditorState) :
  h !! s = Some st -> alter f s h !!! s = f st.
Proof.
  intros Hs. apply list_lookup_total_correct.
  rewrite list_lookup_alter_eq, Hs. reflexivity.
Qed.

Lemma dataSlot_set (key : string) (b : bool) (st : TypeScriptTextEditorState) :
  dataSlot key (set_dataSlot key b st) = b.
Proof. unfold dataSlot, set_dataSlot. simpl. rewrite lookup_insert_eq. reflexivity. Qed.

Lemma alter_query (h : list TypeScriptTextEditorState) (s : ref) (p : Point) :
  alter (applyMethod C (MGetDiagnosticForBufferPosition p)) s h = h.
Proof. apply list_alter_id. reflexivity. Qed.

(** ** The tooltip under the mouse *)

(** C6: a hover event on an editor whose state is registered.  An empty
    position clears the tooltip.  With a position, nothing at all happens while
    an auto-complete session is in progress; otherwise the diagnostic at the
    position, when there is one, becomes the tooltip (whether or not quick-info
    exists there too), else the quick-info at the position, when there is one,
    and else the tooltip is cleared. *)
Theorem onMouseHoverPositionChanged_tooltip
  (w : World) (e : TypeScriptTextEditor) (s : ref)
  (st : TypeScriptTextEditorState) (bufferPosition : option Point) :
  mjoin (_textEditorStates w !! tsId e) = Some s ->
  heap w !! s = Some st ->
  returns (onMouseHoverPositionChanged C e bufferPosition) w = true /\
  match bufferPosition with
  | None =>
      tooltip (stateAt (exec (onMouseHoverPositionChanged C e bufferPosition) w) s) = None
  | Some p =>
      if autoCompleteInProgress st
      then exec (onMouseHoverPositionChanged C e bufferPosition) w = w
      else
        tooltip (stateAt (exec (onMouseHoverPositionChanged C e bufferPosition) w) s) =
          match getDiagnosticForBufferPosition C st p with
          | Some d => Some (TooltipMessage (messageText d) p)
          | None =>
              match getQuickInfoForBufferPosition C e p with
              | Some info => Some (TooltipQuickInfo info p)
              | None => None
              end
          end
  end.
Proof.
  intros Hstate Hst. unfold stateAt. unfold_handlers. mrun.
  rewrite Hstate. simpl.
  destruct bufferPosition as [p|]; simpl.
  - rewrite (lookup_total_Some _ _ _ Hst).
    destruct (autoCompleteInProgress st); simpl; [split; reflexivity|].
    rewrite alter_query, (lookup_total_Some _ _ _ Hst).
    destruct (getDiagnosticForBufferPosition C st p) as [d|]; simpl.
    + rewrite alter_query, (alter_total_Some _ _ _ _ Hst). split; reflexivity.
    + destruct (getQuickInfoForBufferPosition C e p) as [info|]; simpl;
        rewrite alter_query, (alter_total_Some _ _ _ _ Hst); split; reflexivity.
  - rewrite (alter_total_Some _ _ _ _ Hst). split; reflexivity.
Qed.

(** ** The toggle command *)

Lemma drop_common_prefix {A} (a b c : list A) :
  drop (length (a ++ b)) (a ++ c) = drop (length b) c.
Proof.
  rewrite length_app, <- drop_drop, drop_app_length. reflexivity.
Qed.

Ltac added_effects :=
  rewrite <- ?app_assoc, ?drop_common_prefix, ?drop_app_length, ?drop_all; simpl.


(** ** The polling timer *)

Lemma poll_add (h : handle) (n m : nat) (w : World) :
  poll C h (n + m) w = poll C h m (poll C h n w).
Proof. unfold poll, run. rewrite repeat_app, foldl_app. reflexivity. Qed.

(** A run of the callback while the flag is set and the count is at most
    [maxIntervals] only counts. *)
Lemma intervalCallback_counts (w : World) (h : handle) (s : ref)
  (st : TypeScriptTextEditorState) (func : Deferred) (c : Z) :
  timers w !! h = Some (mkTimer (Some s) func c 2 true) ->
  heap w !! s = Some st ->
  dataSlot "contents-changing" st = true ->
  c <= maxIntervals ->
  timers (poll C h 1 w) !! h = Some (mkTimer (Some s) func (c + 1) 2 true) /\
  heap (poll C h 1 w) = heap w /\
  trace (poll C h 1 w) = trace w.
Proof.
  intros Htimer Hst Hflag Hc. unfold poll, run, step, handleEvent. simpl.
  unfold intervalCallback, fire. unfold_handlers. mrun.
  rewrite Htimer. simpl. rewrite (lookup_total_Some _ _ _ Hst), Hflag. simpl.
  assert ((c >? maxIntervals) = false) as -> by lia. simpl.
  rewrite list_lookup_alter_eq, Htimer. repeat split; reflexivity.
Qed.

(** A run of the callback while the flag is set and the count is above
    [maxIntervals] invokes the deferred function, clears the flag and cancels
    the timer. *)
Lemma intervalCallback_gives_up (w : World) (h : handle) (s : ref)
  (st : TypeScriptTextEditorState) (c : Z) :
  timers w !! h
    = Some (mkTimer (Some s) (DeferredToggleAutoComplete (Some s)) c 2 true) ->
  heap w !! s = Some st ->
  dataSlot "contents-changing" st = true ->
  maxIntervals < c ->
  trace (poll C h 1 w) = trace w ++ [StateCall s MToggleAutoComplete; ClearInterval h] /\
  dataSlot "contents-changing" (stateAt (poll C h 1 w) s) = false /\
  tmLive <$> timers (poll C h 1 w) !! h = Some false.
Proof.
  intros Htimer Hst Hflag Hc. unfold poll, run, step, handleEvent, stateAt. simpl.
  unfold intervalCallback, fire, runDeferred. unfold_handlers. mrun.
  rewrite Htimer. simpl. rewrite (lookup_total_Some _ _ _ Hst), Hflag. simpl.
  assert ((c >? maxIntervals) = true) as -> by lia. simpl.
  rewrite <- app_assoc, !list_lookup_alter_eq, Htimer. simpl.
  rewrite list_alter_alter_eq, (alter_total_Some _ _ _ _ Hst). simpl.
  rewrite dataSlot_set. repeat split; reflexivity.
Qed.

Lemma poll_counts (n : nat) :
  forall (w : World) (h : handle) (s : ref) (st : TypeScriptTextEditorState)
         (func : Deferred) (c : Z),
  timers w !! h = Some (mkTimer (Some s) func c 2 true) ->
  heap w !! s = Some st ->
  dataSlot "contents-changing" st = true ->
  c + Z.of_nat n <= maxIntervals + 1 ->
  timers (poll C h n w) !! h = Some (mkTimer (Some s) func (c + Z.of_nat n) 2 true) /\
  heap (poll C h n w) = heap w /\
  trace (poll C h n w) = trace w.
Proof.
  induction n as [|n IH]; intros w h s st func c Htimer Hst Hflag Hc.
  - rewrite Z.add_0_r. auto.
  - change (S n) with (1 + n)%nat. rewrite poll_add.
    destruct (intervalCallback_counts w h s st func c Htimer Hst Hflag)
      as (Htimer1 & Hheap1 & Htrace1); [lia|].
    destruct (IH (poll C h 1 w) h s st func (c + 1) Htimer1) as (Ht & Hh & Htr).
    + rewrite Hheap1. exact Hst.
    + exact Hflag.
    + lia.
    + rewrite Ht, Hh, Htr, Hheap1, Htrace1.
      replace (c + Z.of_nat (1 + n)) with (c + 1 + Z.of_nat n) by lia. auto.
Qed.

(** C2 (what the code does): while the "contents-changing" flag stays set,
    the callback of the timer started by [executeAfterContentChange] only
    counts during its first 51 runs - the deferred function is not invoked
    then, in particular not at the 50th run - and at the 52nd run, 104 time
    units after the timer was started, it invokes the deferred function,
    clears the flag and cancels the timer. *)
Theorem executeAfterContentChange_fail_open
  (w : World) (s : ref) (st : TypeScriptTextEditorState) :
  heap w !! s = Some st ->
  dataSlot "contents-changing" st = true ->
  let func := DeferredToggleAutoComplete (Some s) in
  let h := length (timers w) in
  let w0 := exec (executeAfterContentChange (Some s) func) w in
  (forall n : nat, (n <= 51)%nat ->
     trace (poll C h n w0) = trace w0 /\
     heap (poll C h n w0) = heap w /\
     timers (poll C h n w0) !! h = Some (mkTimer (Some s) func (Z.of_nat n) 2 true)) /\
  trace (poll C h 52 w0) = trace w0 ++ [StateCall s MToggleAutoComplete; ClearInterval h] /\
  dataSlot "contents-changing" (stateAt (poll C h 52 w0) s) = false /\
  tmLive <$> timers (poll C h 52 w0) !! h = Some false /\
  elapsed (mkTimer (Some s) func 0 2 true) 52 = 104.
Proof.
  intros Hst Hflag func h w0.
  assert (Htimer : timers w0 !! h = Some (mkTimer (Some s) func 0 2 true)).
  { unfold w0, h. unfold_handlers. mrun. apply list_lookup_middle. reflexivity. }
  assert (Hheap : heap w0 = heap w) by reflexivity.
  assert (Hpending : forall n : nat, (n <= 51)%nat ->
     trace (poll C h n w0) = trace w0 /\
     heap (poll C h n w0) = heap w /\
     timers (poll C h n w0) !! h = Some (mkTimer (Some s) func (Z.of_nat n) 2 true)).
  { intros n Hn.
    destruct (poll_counts n w0 h s st func 0 Htimer) as (Ht & Hh & Htr);
      [rewrite Hheap; exact Hst | exact Hflag | unfold maxIntervals; lia |].
    rewrite Ht, Hh, Htr. auto. }
  split; [exact Hpending|].
  destruct (Hpending 51%nat) as (Htr & Hh & Ht); [lia|].
  change 52%nat with (51 + 1)%nat. rewrite poll_add.
  destruct (intervalCallback_gives_up (poll C h 51 w0) h s st 51 Ht) as (Htr' & Hfl & Hlv).
  - rewrite Hh. exact Hst.
  - exact Hflag.
  - unfold maxIntervals. lia.
  - rewrite Htr', Htr, Hfl, Hlv. repeat split; reflexivity.
Qed.

(** ** Disposal *)

(** C3 (amended): whatever the host held before, the registrations acquired
    by the constructor are the five commands and the key map, and after
    [dispose] every one of them is released. *)
Theorem dispose_releases_registrations (w0 : World) :
  filter (fun p => isRegistration p.1 = true)
    (acquiredSince w0 (exec dispose (exec TypeScriptWorkspace_new w0)))
  = [ (CommandRegistration typeScriptSelector (commandName Toggle), false);
      (CommandRegistration guardedSelector (guardedName Dismiss), false);
      (CommandRegistration guardedSelector (guardedName Confirm), false);
      (CommandRegistration guardedSelector (guardedName SelectNext), false);
      (CommandRegistration guardedSelector (guardedName SelectPrevious), false);
      (KeymapRegistration "TypeScriptWorkspace" typeScriptSelector keys, false) ].
Proof.
  unfold acquiredSince, dispose, TypeScriptWorkspace_new, acquire, release, push.
  mrun. rewrite <- !app_assoc. simpl. rewrite !length_app. simpl.
  rewrite !alter_app_r. simpl. rewrite drop_app_length. reflexivity.
Qed.

(** ** Closing the active editor *)

(** C4 (what the code does): when the editor whose state is the active one is
    closed, its state is disposed and its entry is cleared, but the pointer to
    the active state still holds the disposed state; the next focus change to
    an editor of the recognized language starts by calling [deactivate] on
    it. *)
Theorem closed_active_state_is_deactivated_later
  (w : World) (e : TypeScriptTextEditor) (ed : TextEditor) (s : ref)
  (st : TypeScriptTextEditorState) :
  mjoin (_textEditorStates w !! tsId e) = Some s ->
  heap w !! s = Some st ->
  _activeTextEditorState w = Some s ->
  recognized (Some ed) = true ->
  disposed (stateAt (step C w (Closed e)) s) = true /\
  registered (step C w (Closed e)) (tsId e) = false /\
  _activeTextEditorState (step C w (Closed e)) = Some s /\
  head (stateCalls (effectsOf (onTextEditorChanged C (Some ed)) (step C w (Closed e))))
    = Some (s, MDeactivate).
Proof.
  intros Hstate Hst Hactive Hrec. simpl in Hrec.
  unfold step, handleEvent, registered, stateAt. unfold_handlers. mrun.
  rewrite Hstate. simpl. rewrite (alter_total_Some _ _ _ _ Hst), lookup_insert_eq.
  repeat split; try assumption.
  rewrite Hrec. simpl.
  destruct (_statusBar w) as [sb|] eqn:Hsb; simpl;
    try destruct (statusBarElement w); simpl;
    rewrite Hactive; simpl;
    destruct (mjoin (<[tsId e:=None]> (_textEditorStates w) !! id ed)) as [s'|]; simpl;
    rewrite ?Hsb; simpl; added_effects; reflexivity.
Qed.

(** ** Invariants of the event loop *)

Lemma preserved_bind {A B} (P : World -> Prop) (c : M A) (k : A -> M B) :
  preserved P c -> (forall a, preserved P (k a)) -> preserved P (c ≫= k).
Proof.
  intros Hc Hk w HP. specialize (Hc w HP). revert Hc.
  unfold exec, mbind, M_bind, bind.
  destruct (c w) as [[a|err] w']; simpl; [apply Hk | trivial].
Qed.

Lemma preserved_ret {A} (P : World -> Prop) (a : A) : preserved P (mret a).
Proof. intros w HP. exact HP. Qed.

Lemma preserved_gets {A} (P : World -> Prop) (f : World -> A) : preserved P (gets f).
Proof. intros w HP. exact HP. Qed.

Lemma preserved_deref {A} (P : World -> Prop) (v : option A) : preserved P (deref v).
Proof. intros w HP. destruct v; exact HP. Qed.

Lemma preserved_modify (P : World -> Prop) (f : World -> World) :
  (forall w, P w -> P (f w)) -> preserved P (modify f).
Proof. intros Hf w HP. apply Hf, HP. Qed.

Lemma preserved_field {A} (P : World -> Prop) (state : option ref)
  (f : TypeScriptTextEditorState -> A) :
  preserved P (field state f).
Proof. intros w HP. destruct state; exact HP. Qed.

Lemma preserved_call (P : World -> Prop) (state : option ref) (m : StateMethod) :
  (forall w s, P w ->
     P (with_heap (alter (applyMethod C m) s)
          (with_trace (fun t => t ++ [StateCall s m]) w))) ->
  preserved P (call C state m).
Proof. intros Hm w HP. destruct state as [s|]; [apply Hm, HP | exact HP]. Qed.

Lemma preserved_assignDataSlot (P : World -> Prop) (state : option ref)
  (key : string) (b : bool) :
  (forall w s, P w -> P (with_heap (alter (set_dataSlot key b) s) w)) ->
  preserved P (assignDataSlot state key b).
Proof. intros Hm w HP. destruct state as [s|]; [apply Hm, HP | exact HP]. Qed.

Lemma preserved_allocate (P : World -> Prop) (st : TypeScriptTextEditorState) :
  (forall w, P w -> P (with_heap (fun h => h ++ [st]) w)) ->
  preserved P (allocate st).
Proof. intros Hm w HP. apply Hm, HP. Qed.

Lemma preserved_acquire (P : World -> Prop) (r : Resource) :
  (forall w, P w -> P (with_resources (fun l => l ++ [(r, true)]) w)) ->
  preserved P (acquire r).
Proof. intros Hm w HP. apply Hm, HP. Qed.

(** Splits a handler into its primitive steps; what is left are the steps that
    write the world. *)
Ltac preserve_step :=
  lazymatch goal with
  | |- preserved _ (mbind _ _) => apply preserved_bind; [|intros ?]
  | |- preserved _ (mret _) => apply preserved_ret
  | |- preserved _ (ret _) => apply (preserved_ret _ _)
  | |- preserved _ (gets _) => apply preserved_gets
  | |- preserved _ (deref _) => apply preserved_deref
  | |- preserved _ (field _ _) => apply preserved_field
  | |- preserved _ (call _ _ _) => apply preserved_call; intros ? ?
  | |- preserved _ (assignDataSlot _ _ _) => apply preserved_assignDataSlot; intros ? ?
  | |- preserved _ (allocate _) => apply preserved_allocate; intros ?
  | |- preserved _ (acquire _) => apply preserved_acquire; intros ?
  | |- preserved _ (modify _) => apply preserved_modify; intros ?
  | |- preserved _ (match ?x with _ => _ end) => destruct x
  end.

Ltac preserve_steps := repeat preserve_step.

Ltac unfold_composites :=
  unfold onTextEditorChanged, onTypeScriptTextEditorOpened,
    onTypeScriptTextEditorContentsChanging, onTypeScriptTextEditorContentsChanged,
    onMouseHoverPositionChanged, onCursorPositionChanged,
    onTypeScriptTextEditorClosed, withAutoCompleteInProgress,
    onToggleAutoComplete, executeAfterContentChange, updateStatusBar,
    getStatusBar, statusBar_hide, statusBar_show, getActiveTextEditor,
    textEditorState, guardedCallback, intervalCallback, fire, runDeferred, emit.

(** *** Only the state the pointer holds is marked active *)

Lemma onlyActive_alter (f : TypeScriptTextEditorState -> TypeScriptTextEditorState)
  (h : list TypeScriptTextEditorState) (a : option ref) (s : ref) :
  (forall st, active (f st) = true -> active st = true) ->
  onlyActive h a -> onlyActive (alter f s h) a.
Proof.
  intros Hf Hh x st' Hx Hact. destruct (decide (s = x)) as [->|Hne].
  - rewrite list_lookup_alter_eq in Hx.
    destruct (h !! x) as [st|] eqn:Hlook; simpl in Hx; [|discriminate].
    injection Hx as <-. eauto.
  - rewrite list_lookup_alter_ne in Hx by exact Hne. eauto.
Qed.

Lemma onlyActive_snoc (h : list TypeScriptTextEditorState) (a : option ref)
  (st : TypeScriptTextEditorState) :
  active st = false -> onlyActive h a -> onlyActive (h ++ [st]) a.
Proof.
  intros Hst Hh x st' Hx Hact. apply lookup_snoc_Some in Hx as [[_ Hx]|[_ ->]].
  - eauto.
  - congruence.
Qed.

(** Deactivating the state the pointer holds leaves no state active. *)
Lemma onlyActive_deactivate (h : list TypeScriptTextEditorState) (p : ref)
  (a : option ref) :
  onlyActive h (Some p) -> onlyActive (alter (set_active false) p h) a.
Proof.
  intros Hh x st' Hx Hact. exfalso. destruct (decide (p = x)) as [->|Hne].
  - rewrite list_lookup_alter_eq in Hx.
    destruct (h !! x); simpl in Hx; [|discriminate].
    injection Hx as <-. discriminate.
  - rewrite list_lookup_alter_ne in Hx by exact Hne.
    specialize (Hh x st' Hx Hact). congruence.
Qed.

Lemma onlyActive_none (h : list TypeScriptTextEditorState) (a : option ref) :
  onlyActive h None -> onlyActive h a.
Proof. intros Hh x st' Hx Hact. specialize (Hh x st' Hx Hact). discriminate. Qed.

(** Activating a state when no state is active makes it the only one. *)
Lemma onlyActive_activate (h : list TypeScriptTextEditorState) (s : ref) :
  onlyActive h None -> onlyActive (alter (set_active true) s h) (Some s).
Proof.
  intros Hh x st' Hx Hact. destruct (decide (s = x)) as [->|Hne]; [reflexivity|].
  rewrite list_lookup_alter_ne in Hx by exact Hne.
  specialize (Hh x st' Hx Hact). discriminate.
Qed.

Lemma applyMethod_keeps_inactive (m : StateMethod) :
  keepsActiveMark C -> m <> MActivate ->
  forall st, active (applyMethod C m st) = true -> active st = true.
Proof.
  intros (H1 & H2 & H3 & H4 & H5) Hm st.
  destruct m; simpl; rewrite ?H1, ?H2, ?H3, ?H4, ?H5; try congruence; trivial.
Qed.

Lemma onTextEditorChanged_onlyActivePointer (textEditor : option TextEditor) :
  preserved onlyActivePointer (onTextEditorChanged C textEditor).
Proof.
  intros w Hw. unfold onlyActivePointer in *. unfold_handlers. mrun.
  destruct textEditor as [ed|]; simpl;
    [destruct (grammarName ed =? "TypeScript")%string; simpl|];
    destruct (_statusBar w) as [sb|] eqn:Hsb; simpl;
    try destruct (statusBarElement w); simpl; rewrite ?Hsb; simpl; try exact Hw;
    (destruct (_activeTextEditorState w) as [p|] eqn:Hp; simpl;
     destruct (mjoin (_textEditorStates w !! id ed)) as [s|]; simpl;
     rewrite ?Hsb; simpl;
     [ apply onlyActive_activate, onlyActive_deactivate, Hw
     | apply onlyActive_deactivate, Hw
     | apply onlyActive_activate, Hw
     | exact Hw ]).
Qed.

Lemma handleEvent_onlyActivePointer (ev : Event) :
  keepsActiveMark C -> preserved onlyActivePointer (handleEvent C ev).
Proof.
  intros HC.
  destruct ev as [e|ed|e|e|e p|e d|e|[|g]|ed|h|present]; simpl;
    try apply onTextEditorChanged_onlyActivePointer;
    unfold_composites; preserve_steps;
    unfold onlyActivePointer; simpl; intros Hw; try exact Hw;
    try (apply onlyActive_snoc; [reflexivity | exact Hw]);
    try (apply onlyActive_alter; [|exact Hw];
         first [ intros st Hst; exact Hst
               | apply applyMethod_keeps_inactive; [exact HC | discriminate] ]).
Qed.

Lemma run_onlyActivePointer (evs : list Event) :
  keepsActiveMark C ->
  forall w, onlyActivePointer w -> onlyActivePointer (run C evs w).
Proof.
  intros HC. induction evs as [|ev evs IH]; intros w Hw; [exact Hw|].
  apply IH, handleEvent_onlyActivePointer; assumption.
Qed.

Lemma initial_onlyActivePointer (focused : option TextEditor) (hasStatusBar : bool) :
  onlyActivePointer (initial focused hasStatusBar).
Proof. intros s st Hs. discriminate. Qed.

Lemma elem_of_activeStates (w : World) (x : ref) :
  x ∈ activeStates w <-> (x < length (heap w))%nat /\ active (stateAt w x) = true.
Proof.
  unfold activeStates. rewrite list_elem_of_filter, elem_of_seq. simpl.
  split; intros [H1 H2]; split; try assumption; lia.
Qed.

Lemma activeStates_pointer (w : World) (x : ref) :
  onlyActivePointer w -> x ∈ activeStates w -> _activeTextEditorState w = Some x.
Proof.
  intros Hw [Hlt Hact]%elem_of_activeStates.
  apply (Hw x (stateAt w x)); [|exact Hact].
  apply list_lookup_lookup_total_lt, Hlt.
Qed.

Lemma NoDup_activeStates (w : World) : NoDup (activeStates w).
Proof. apply NoDup_filter, NoDup_seq. Qed.

Lemma activeStates_at_most_one (w : World) :
  onlyActivePointer w -> (length (activeStates w) <= 1)%nat.
Proof.
  intros Hw. pose proof (NoDup_activeStates w) as Hnd.
  pose proof (activeStates_pointer w) as Hptr.
  destruct (activeStates w) as [|a [|b l]]; simpl; try lia.
  exfalso.
  assert (Ha : _activeTextEditorState w = Some a) by (apply Hptr; [exact Hw | set_solver]).
  assert (Hb : _activeTextEditorState w = Some b) by (apply Hptr; [exact Hw | set_solver]).
  assert (a = b) by congruence. subst b.
  apply NoDup_cons in Hnd as [Hnotin _]. apply Hnotin. set_solver.
Qed.

Lemma activeStates_singleton (w : World) (s : ref) :
  onlyActivePointer w ->
  _activeTextEditorState w = Some s ->
  (s < length (heap w))%nat ->
  active (stateAt w s) = true ->
  activeStates w = [s].
Proof.
  intros Hw Hptr Hlt Hact. apply Permutation_singleton_r.
  apply NoDup_Permutation; [apply NoDup_activeStates | apply NoDup_singleton |].
  intros x. rewrite list_elem_of_singleton. split.
  - intros Hx. pose proof (activeStates_pointer w x Hw Hx). congruence.
  - intros ->. apply elem_of_activeStates. auto.
Qed.

(** *** The states of the mapping are objects of the store *)

Lemma initial_registeredAllocated (focused : option TextEditor) (hasStatusBar : bool) :
  registeredAllocated (initial focused hasStatusBar).
Proof. intros i s Hs. discriminate. Qed.

Lemma handleEvent_registeredAllocated (ev : Event) :
  preserved registeredAllocated (handleEvent C ev).
Proof.
  destruct ev as [e|ed|e|e|e p|e d|e|[|g]|ed|h|present]; simpl.
  1: { intros w Hw i s. unfold_handlers. mrun.
       rewrite length_alter, length_app. simpl.
       rewrite lookup_insert. case_decide.
       - intros [= <-]. lia.
       - intros Hi. specialize (Hw i s Hi). lia. }
  all: unfold_composites; preserve_steps;
    unfold registeredAllocated; simpl; intros Hw; try exact Hw;
    intros i s'; rewrite ?length_alter, ?length_app; try (apply Hw).
  rewrite lookup_insert. case_decide; [discriminate | apply Hw].
Qed.

Lemma run_registeredAllocated (evs : list Event) :
  forall w, registeredAllocated w -> registeredAllocated (run C evs w).
Proof.
  induction evs as [|ev evs IH]; intros w Hw; [exact Hw|].
  apply IH, handleEvent_registeredAllocated, Hw.
Qed.

(** *** Focus on a registered editor of the recognized language *)

Lemma onTextEditorChanged_registered (w : World) (ed : TextEditor) (s : ref) :
  recognized (Some ed) = true ->
  mjoin (_textEditorStates w !! id ed) = Some s ->
  returns (onTextEditorChanged C (Some ed)) w = true /\
  _activeTextEditorState (exec (onTextEditorChanged C (Some ed)) w) = Some s /\
  heap (exec (onTextEditorChanged C (Some ed)) w)
    = alter (set_active true) s
        match _activeTextEditorState w with
        | Some p => alter (set_active false) p (heap w)
        | None => heap w
        end /\
  effectsOf (onTextEditorChanged C (Some ed)) w
    = match _activeTextEditorState w with
      | Some p => [StateCall p MDeactivate; StateCall s MActivate]
      | None => [StateCall s MActivate]
      end.
Proof.
  intros Hrec Hstate. simpl in Hrec. unfold_handlers. mrun. rewrite Hrec. simpl.
  destruct (_statusBar w) as [sb|] eqn:Hsb; simpl;
    try destruct (statusBarElement w); simpl;
    destruct (_activeTextEditorState w) as [p|]; simpl;
    rewrite Hstate; simpl; rewrite ?Hsb; simpl; added_effects;
    repeat split; reflexivity.
Qed.

(** C5: in every world reached from the constructed coordinator by any
    sequence of events, at most one state is marked active; and there a focus
    change to a registered editor of the recognized language calls
    [deactivate] on the state that was active, if there is one, before it
    calls [activate] on the new state, which ends up as the only active
    one.  The methods of the state class that are left open are assumed not
    to touch the active mark. *)
Theorem at_most_one_active_state
  (focused : option TextEditor) (hasStatusBar : bool) (evs : list Event) :
  keepsActiveMark C ->
  (length (activeStates (run C evs (initial focused hasStatusBar))) <= 1)%nat /\
  forall (ed : TextEditor) (s : ref),
    recognized (Some ed) = true ->
    mjoin (_textEditorStates (run C evs (initial focused hasStatusBar)) !! id ed) = Some s ->
    stateCalls (effectsOf (onTextEditorChanged C (Some ed))
                  (run C evs (initial focused hasStatusBar)))
      = match _activeTextEditorState (run C evs (initial focused hasStatusBar)) with
        | Some p => [(p, MDeactivate); (s, MActivate)]
        | None => [(s, MActivate)]
        end /\
    activeStates (exec (onTextEditorChanged C (Some ed))
                    (run C evs (initial focused hasStatusBar))) = [s].
Proof.
  intros HC. set (w := run C evs (initial focused hasStatusBar)).
  assert (Hone : onlyActivePointer w)
    by (apply run_onlyActivePointer; [exact HC | apply initial_onlyActivePointer]).
  assert (Halloc : registeredAllocated w)
    by apply run_registeredAllocated, initial_registeredAllocated.
  split; [apply activeStates_at_most_one, Hone|].
  intros ed s Hrec Hstate.
  destruct (onTextEditorChanged_registered w ed s Hrec Hstate)
    as (_ & Hptr & Hheap & Heff).
  split.
  - rewrite Heff. destruct (_activeTextEditorState w); reflexivity.
  - assert (Hlt : (s < length (heap w))%nat).
    { apply (Halloc (id ed)).
      destruct (_textEditorStates w !! id ed) as [[s'|]|]; simpl in Hstate; congruence. }
    apply activeStates_singleton.
    + apply onTextEditorChanged_onlyActivePointer, Hone.
    + exact Hptr.
    + rewrite Hheap, length_alter. destruct (_activeTextEditorState w);
        rewrite ?length_alter; exact Hlt.
    + unfold stateAt. rewrite Hheap. rewrite list_lookup_total_alter_eq; [reflexivity|].
      destruct (_activeTextEditorState w); rewrite ?length_alter; exact Hlt.
Qed.

(** ** Opening and closing editors *)

Lemma handleEvent_holdsState (ev : Event) (editorId : Z) (s : ref) :
  writesEntry editorId ev = false ->
  preserved (holdsState editorId s) (handleEvent C ev).
Proof.
  intros Hev.
  destruct ev as [e|ed|e|e|e p|e d|e|[|g]|ed|h|present]; simpl in *;
    try (apply bool_decide_eq_false in Hev);
    unfold_composites; preserve_steps;
    unfold holdsState; simpl; intros [Hentry Hlt]; try (split; assumption);
    rewrite ?length_alter, ?length_app, ?lookup_insert_ne by exact Hev;
    (split; [exact Hentry | lia]).
Qed.

Lemma run_holdsState (evs : list Event) (editorId : Z) (s : ref) :
  Forall (fun ev => writesEntry editorId ev = false) evs ->
  forall w, holdsState editorId s w -> holdsState editorId s (run C evs w).
Proof.
  induction 1 as [|ev evs Hev _ IH]; intros w Hw; [exact Hw|].
  apply IH, handleEvent_holdsState; assumption.
Qed.

Lemma opened_holdsState (w : World) (e : TypeScriptTextEditor) :
  holdsState (tsId e) (length (heap w)) (step C w (TypeScriptTextEditorOpened e)).
Proof.
  unfold holdsState, step, handleEvent. unfold_handlers. mrun.
  rewrite lookup_insert_eq, length_alter, length_app. simpl. split; [reflexivity | lia].
Qed.

(** After a closed event the identifier is not registered, even when the
    handler throws because it already was not. *)
Lemma closed_not_registered (w : World) (e : TypeScriptTextEditor) :
  registered (step C w (Closed e)) (tsId e) = false.
Proof.
  unfold registered, step, handleEvent. unfold_handlers. mrun.
  destruct (mjoin (_textEditorStates w !! tsId e)) as [s|] eqn:Hs; simpl.
  - rewrite lookup_insert_eq. reflexivity.
  - rewrite Hs. reflexivity.
Qed.

(** C7: an editor is opened, then any events other than an opening or closing
    of the same identifier are processed, then the editor is closed.  The
    identifier is registered until then; the closed event returns normally,
    disposes the state created at the opening, leaves [undefined] in the entry
    and the identifier is no longer registered. *)
Theorem closed_after_opened
  (w : World) (e : TypeScriptTextEditor) (evs : list Event) :
  Forall (fun ev => writesEntry (tsId e) ev = false) evs ->
  registered (run C evs (step C w (TypeScriptTextEditorOpened e))) (tsId e) = true /\
  returns (onTypeScriptTextEditorClosed C e)
    (run C evs (step C w (TypeScriptTextEditorOpened e))) = true /\
  disposed (stateAt (step C (run C evs (step C w (TypeScriptTextEditorOpened e))) (Closed e))
              (length (heap w))) = true /\
  _textEditorStates
    (step C (run C evs (step C w (TypeScriptTextEditorOpened e))) (Closed e)) !! tsId e
    = Some None /\
  registered (step C (run C evs (step C w (TypeScriptTextEditorOpened e))) (Closed e))
    (tsId e) = false.
Proof.
  intros Hevs.
  pose proof (run_holdsState evs (tsId e) (length (heap w)) Hevs _ (opened_holdsState w e))
    as [Hentry Hlt].
  set (w1 := run C evs (step C w (TypeScriptTextEditorOpened e))) in *.
  split; [|split; [|split; [|split]]].
  - unfold registered. rewrite Hentry. reflexivity.
  - unfold_handlers. mrun. rewrite Hentry. reflexivity.
  - unfold step, handleEvent, stateAt. unfold_handlers. mrun. rewrite Hentry. simpl.
    rewrite list_lookup_total_alter_eq by exact Hlt. reflexivity.
  - unfold step, handleEvent. unfold_handlers. mrun. rewrite Hentry. simpl.
    apply lookup_insert_eq.
  - apply closed_not_registered.
Qed.


(** ** More on the status bar *)

(** X1: [getStatusBar] is idempotent: once it has run, running it again
    changes nothing, so the model is constructed and its view attached at most
    once however often the handlers ask for it. *)
Theorem getStatusBar_idempotent (w : World) :
  is_Some (_statusBar (exec getStatusBar w)) /\
  exec getStatusBar (exec getStatusBar w) = exec getStatusBar w.
Proof.
  unfold getStatusBar. mrun.
  destruct (_statusBar w) as [sb|] eqn:Hsb; simpl.
  - rewrite Hsb. split; [eauto | reflexivity].
  - destruct (statusBarElement w); simpl; split; eauto.
Qed.

Lemma getStatusBar_attachedOnce : preserved attachedOnce getStatusBar.
Proof.
  intros w Hw. unfold attachedOnce in *. unfold getStatusBar. mrun.
  destruct (_statusBar w) as [sb|] eqn:Hsb; simpl; [rewrite Hsb; exact Hw|].
  destruct Hw as [Hw|[_ [sb Hsome]]]; [|discriminate].
  destruct (statusBarElement w); simpl; rewrite Hw; [right|left]; eauto.
Qed.

Lemma getStatusBar_modelWithTiles (tiles : list Z) :
  preserved (modelWithTiles tiles) getStatusBar.
Proof.
  intros w [[sb Hsb] Hw]. unfold modelWithTiles. unfold getStatusBar. mrun.
  rewrite Hsb. simpl. rewrite Hsb. eauto.
Qed.

Ltac unfold_around_statusBar :=
  unfold onTextEditorChanged, onTypeScriptTextEditorOpened,
    onTypeScriptTextEditorContentsChanging, onTypeScriptTextEditorContentsChanged,
    onMouseHoverPositionChanged, onCursorPositionChanged,
    onTypeScriptTextEditorClosed, withAutoCompleteInProgress,
    onToggleAutoComplete, executeAfterContentChange, updateStatusBar,
    statusBar_hide, statusBar_show, getActiveTextEditor,
    textEditorState, guardedCallback, intervalCallback, fire, runDeferred, emit.

Lemma handleEvent_attachedOnce (ev : Event) :
  preserved attachedOnce (handleEvent C ev).
Proof.
  destruct ev as [e|ed|e|e|e p|e d|e|[|g]|ed|h|present]; simpl;
    unfold_around_statusBar; preserve_steps;
    try apply getStatusBar_attachedOnce;
    unfold attachedOnce; simpl; intros Hw; try exact Hw;
    (destruct Hw as [Hw|[Hw [sb Hsb]]]; [left; exact Hw|right; rewrite Hsb; simpl; eauto]).
Qed.

Lemma handleEvent_modelWithTiles (ev : Event) (tiles : list Z) :
  preserved (modelWithTiles tiles) (handleEvent C ev).
Proof.
  destruct ev as [e|ed|e|e|e p|e d|e|[|g]|ed|h|present]; simpl;
    unfold_around_statusBar; preserve_steps;
    try apply getStatusBar_modelWithTiles;
    unfold modelWithTiles; simpl; intros Hw; try exact Hw;
    (destruct Hw as [[sb Hsb] Hw]; rewrite Hsb; simpl; eauto).
Qed.

(** X2: whatever events are processed after construction - the document may
    gain or lose its [status-bar] element in between - the view of the status
    bar is attached at most once, with priority -100, and only together with
    the model; and once the model exists, nothing attaches or detaches the
    view any more: the document is asked for its element only when the model
    is constructed, so an element that appears later gets no view. *)
Theorem statusBar_attached_at_most_once
  (focused : option TextEditor) (hasStatusBar : bool) (evs evs' : list Event) :
  (leftTiles (run C evs (initial focused hasStatusBar)) = [] \/
   (leftTiles (run C evs (initial focused hasStatusBar)) = [-100] /\
    is_Some (_statusBar (run C evs (initial focused hasStatusBar))))) /\
  (is_Some (_statusBar (run C evs (initial focused hasStatusBar))) ->
   leftTiles (run C evs' (run C evs (initial focused hasStatusBar)))
     = leftTiles (run C evs (initial focused hasStatusBar))).
Proof.
  split.
  - assert (Hrun : forall w, attachedOnce w -> attachedOnce (run C evs w)).
    { induction evs as [|ev evs IH]; intros w Hw; [exact Hw|].
      apply IH, handleEvent_attachedOnce, Hw. }
    apply Hrun. left. reflexivity.
  - generalize (run C evs (initial focused hasStatusBar)). intros w Hmodel.
    assert (Hrun : forall w0, modelWithTiles (leftTiles w) w0 ->
              modelWithTiles (leftTiles w) (run C evs' w0)).
    { induction evs' as [|ev evs' IH]; intros w0 Hw0; [exact Hw0|].
      apply IH, handleEvent_modelWithTiles, Hw0. }
    apply (Hrun w). split; [exact Hmodel | reflexivity].
Qed.


Lemma inError_after_mark (b : bool) (p s : ref) (h : list TypeScriptTextEditorState) :
  inError (alter (set_active b) p h !!! s) = inError (h !!! s).
Proof.
  rewrite list_lookup_total_alter. case_decide as Hp; [|reflexivity].
  destruct Hp as [-> _]. reflexivity.
Qed.

(** X3: a focus change to a registered editor of the recognized language
    leaves the status indicator shown, with the "in error" flag of the state
    of that editor. *)
Theorem onTextEditorChanged_refreshes_statusBar
  (w : World) (ed : TextEditor) (s : ref) (st : TypeScriptTextEditorState) :
  recognized (Some ed) = true ->
  mjoin (_textEditorStates w !! id ed) = Some s ->
  heap w !! s = Some st ->
  _statusBar (exec (onTextEditorChanged C (Some ed)) w)
    = Some {| sbInError := inError st; sbVisible := true |}.
Proof.
  intros Hrec Hstate Hst. simpl in Hrec.
  assert (Hlt : (s < length (heap w))%nat) by (eapply lookup_lt_Some; exact Hst).
  pose proof (lookup_total_Some _ _ _ Hst) as Htotal.
  unfold_handlers. mrun. rewrite Hrec. simpl.
  destruct (_statusBar w) as [sb|] eqn:Hsb; simpl;
    try destruct (statusBarElement w); simpl;
    destruct (_activeTextEditorState w) as [p|]; simpl;
    rewrite Hstate; simpl; rewrite ?Hsb; simpl;
    rewrite list_lookup_total_alter_eq by (rewrite ?length_alter; exact Hlt);
    simpl; change (applyMethod C MDeactivate) with (set_active false);
    rewrite ?inError_after_mark, Htotal, ?Hsb; reflexivity.
Qed.

(** X4: a contents-changed event of a registered editor, whether or not that
    editor has the focus: the flag is cleared on its state, the state is then
    updated from the content change, and the status indicator is left shown
    with the "in error" flag of the updated state.  The mapping and the
    pointer to the active state are not written. *)
Theorem onTypeScriptTextEditorContentsChanged_refreshes
  (w : World) (e : TypeScriptTextEditor) (s : ref) (st : TypeScriptTextEditorState) :
  mjoin (_textEditorStates w !! tsId e) = Some s ->
  heap w !! s = Some st ->
  returns (onTypeScriptTextEditorContentsChanged C e) w = true /\
  stateAt (exec (onTypeScriptTextEditorContentsChanged C e) w) s
    = updateFromContentChange C (set_dataSlot "contents-changing" false st) /\
  _statusBar (exec (onTypeScriptTextEditorContentsChanged C e) w)
    = Some {| sbInError :=
                inError (updateFromContentChange C
                           (set_dataSlot "contents-changing" false st));
              sbVisible := true |} /\
  _textEditorStates (exec (onTypeScriptTextEditorContentsChanged C e) w)
    = _textEditorStates w /\
  _activeTextEditorState (exec (onTypeScriptTextEditorContentsChanged C e) w)
    = _activeTextEditorState w.
Proof.
  intros Hstate Hst. unfold stateAt. unfold_handlers. mrun. rewrite Hstate. simpl.
  destruct (_statusBar w) as [sb|] eqn:Hsb; simpl;
    try destruct (statusBarElement w); simpl; rewrite ?Hsb; simpl;
    rewrite list_alter_alter_eq, (alter_total_Some _ _ _ _ Hst);
    repeat split; reflexivity.
Qed.

(** ** Events of editors that are not registered, and of other editors *)

(** X5: an event of one of the five streams of an editor throws exactly when
    the identifier of the editor is not registered, and then nothing at all
    has changed. *)
Theorem editor_event_throws_iff_unregistered
  (w : World) (ev : Event) (e : TypeScriptTextEditor) :
  editorOf ev = Some e ->
  throws (handleEvent C ev) w = negb (registered w (tsId e)) /\
  (registered w (tsId e) = false -> step C w ev = w).
Proof.
  intros Hev. unfold registered, step.
  destruct ev as [e'|ed|e'|e'|e' p|e' d|e'|c|ed|h|present]; simpl in Hev; try discriminate;
    injection Hev as ->; simpl; unfold_handlers; mrun;
    destruct (mjoin (_textEditorStates w !! tsId e)) as [s|] eqn:Hs; simpl;
    try (split; [reflexivity | intros _; reflexivity]);
    try (split; [reflexivity | discriminate]).
  - destruct (_statusBar w) as [sb|] eqn:Hsb; simpl;
      try destruct (statusBarElement w); simpl; rewrite ?Hsb; simpl;
      (split; [reflexivity | discriminate]).
  - destruct p as [p|]; simpl; [|split; [reflexivity | discriminate]].
    destruct (autoCompleteInProgress (heap w !!! s)); simpl;
      [split; [reflexivity | discriminate]|].
    rewrite alter_query.
    destruct (getDiagnosticForBufferPosition C (heap w !!! s) p); simpl;
      [split; [reflexivity | discriminate]|].
    destruct (getQuickInfoForBufferPosition C e p); simpl;
      (split; [reflexivity | discriminate]).
  - destruct p as [p|]; simpl; split; reflexivity.
Qed.

(** X6: an event of one of the five streams of an editor writes to no state
    object other than the one registered for that editor, does not move the
    pointer to the active state, and writes no mapping entry of another
    identifier; the store keeps its size. *)
Theorem editor_event_isolated
  (w : World) (ev : Event) (e : TypeScriptTextEditor) (s : ref) :
  editorOf ev = Some e ->
  mjoin (_textEditorStates w !! tsId e) = Some s ->
  (forall s', s' <> s -> heap (step C w ev) !! s' = heap w !! s') /\
  length (heap (step C w ev)) = length (heap w) /\
  _activeTextEditorState (step C w ev) = _activeTextEditorState w /\
  (forall editorId, editorId <> tsId e ->
     _textEditorStates (step C w ev) !! editorId = _textEditorStates w !! editorId).
Proof.
  intros Hev Hstate. unfold step.
  assert (Hframe : forall (h' : list TypeScriptTextEditorState)
                          (m' : gmap Z (option ref)) (a' : option ref),
    length h' = length (heap w) ->
    (forall s', s' <> s -> h' !! s' = heap w !! s') ->
    (forall editorId, editorId <> tsId e -> m' !! editorId = _textEditorStates w !! editorId) ->
    a' = _activeTextEditorState w ->
    (forall s', s' <> s -> h' !! s' = heap w !! s') /\
    length h' = length (heap w) /\
    a' = _activeTextEditorState w /\
    (forall editorId, editorId <> tsId e ->
       m' !! editorId = _textEditorStates w !! editorId))
    by (intros h' m' a' H1 H2 H3 H4; exact (conj H2 (conj H1 (conj H4 H3)))).
  assert (Halter : forall f s', s' <> s -> alter f s (heap w) !! s' = heap w !! s')
    by (intros f s' Hne; apply list_lookup_alter_ne; congruence).
  assert (Halter2 : forall f g s', s' <> s ->
            alter f s (alter g s (heap w)) !! s' = heap w !! s')
    by (intros f g s' Hne; rewrite list_alter_alter_eq; apply Halter, Hne).
  destruct ev as [e'|ed|e'|e'|e' p|e' d|e'|c|ed|h|present]; simpl in Hev; try discriminate;
    injection Hev as ->; simpl; unfold_handlers; mrun; rewrite Hstate; simpl.
  - apply Hframe; rewrite ?length_alter; auto.
  - destruct (_statusBar w) as [sb|] eqn:Hsb; simpl;
      try destruct (statusBarElement w); simpl; rewrite ?Hsb; simpl;
      apply Hframe; rewrite ?length_alter; auto.
  - destruct p as [p|]; simpl.
    + destruct (autoCompleteInProgress (heap w !!! s)); simpl;
        [apply Hframe; auto|].
      rewrite alter_query.
      destruct (getDiagnosticForBufferPosition C (heap w !!! s) p); simpl;
        [|destruct (getQuickInfoForBufferPosition C e p); simpl];
        rewrite alter_query; apply Hframe; rewrite ?length_alter; auto.
    + apply Hframe; rewrite ?length_alter; auto.
  - apply Hframe; rewrite ?length_alter; auto.
  - apply Hframe; rewrite ?length_alter; auto.
    intros editorId Hne. apply lookup_insert_ne. congruence.
Qed.


(** ** Focus on an editor that was never opened *)

(** X7: a focus change to an editor of the recognized language whose
    identifier is not registered throws, but only after it has called
    [deactivate] on the state that was active and has cleared the pointer to
    the active state; nothing is activated, the status indicator is neither
    shown nor hidden, and when the pointer held the only active state no state
    is marked active afterwards. *)
Theorem onTextEditorChanged_unregistered (w : World) (ed : TextEditor) :
  recognized (Some ed) = true ->
  mjoin (_textEditorStates w !! id ed) = None ->
  throws (onTextEditorChanged C (Some ed)) w = true /\
  _activeTextEditorState (exec (onTextEditorChanged C (Some ed)) w) = None /\
  effectsOf (onTextEditorChanged C (Some ed)) w
    = match _activeTextEditorState w with
      | Some p => [StateCall p MDeactivate]
      | None => []
      end /\
  _statusBar (exec (onTextEditorChanged C (Some ed)) w) = _statusBar (exec getStatusBar w) /\
  (onlyActivePointer w -> activeStates (exec (onTextEditorChanged C (Some ed)) w) = []).
Proof.
  intros Hrec Hstate.
  assert (Hactive : onlyActivePointer w ->
            _activeTextEditorState (exec (onTextEditorChanged C (Some ed)) w) = None ->
            activeStates (exec (onTextEditorChanged C (Some ed)) w) = []).
  { intros Hw Hptr.
    pose proof (onTextEditorChanged_onlyActivePointer (Some ed) w Hw) as Hw'.
    destruct (activeStates (exec (onTextEditorChanged C (Some ed)) w)) as [|x l] eqn:Hl;
      [reflexivity|].
    assert (Hx : x ∈ activeStates (exec (onTextEditorChanged C (Some ed)) w))
      by (rewrite Hl; set_solver).
    apply (activeStates_pointer _ _ Hw') in Hx. congruence. }
  assert (Hptr : _activeTextEditorState (exec (onTextEditorChanged C (Some ed)) w) = None).
  { simpl in Hrec. unfold_handlers. mrun. rewrite Hrec. simpl.
    destruct (_statusBar w) as [sb|]; simpl; try destruct (statusBarElement w); simpl;
      destruct (_activeTextEditorState w) as [p|]; simpl; rewrite Hstate; reflexivity. }
  split; [|split; [exact Hptr|split; [|split; [|intros Hw; apply Hactive; assumption]]]];
    simpl in Hrec; unfold_handlers; mrun; rewrite Hrec; simpl;
    destruct (_statusBar w) as [sb|] eqn:Hsb; simpl;
    try destruct (statusBarElement w); simpl;
    destruct (_activeTextEditorState w) as [p|]; simpl; rewrite Hstate; simpl;
    added_effects; reflexivity.
Qed.

(** ** Opening an identifier twice *)

(** X8: when an editor is opened under an identifier that already holds a
    state, the entry is overwritten with a new state and the first state is
    left as it is: it is not disposed, and stays the active state if it was.
    A closed event for the identifier then disposes the new state only. *)
Theorem reopened_editor_orphans_first_state
  (w : World) (e : TypeScriptTextEditor) (s : ref) :
  holdsState (tsId e) s w ->
  mjoin (_textEditorStates (step C w (TypeScriptTextEditorOpened e)) !! tsId e)
    = Some (length (heap w)) /\
  length (heap w) <> s /\
  heap (step C w (TypeScriptTextEditorOpened e)) !! s = heap w !! s /\
  _activeTextEditorState (step C w (TypeScriptTextEditorOpened e))
    = _activeTextEditorState w /\
  heap (run C [TypeScriptTextEditorOpened e; Closed e] w) !! s = heap w !! s /\
  disposed (stateAt (run C [TypeScriptTextEditorOpened e; Closed e] w) (length (heap w)))
    = true /\
  registered (run C [TypeScriptTextEditorOpened e; Closed e] w) (tsId e) = false.
Proof.
  intros [Hentry Hlt].
  assert (Hne : length (heap w) <> s) by lia.
  unfold run, registered, stateAt. simpl. unfold step, handleEvent. unfold_handlers. mrun.
  rewrite !lookup_insert_eq. simpl. rewrite !lookup_insert_eq. simpl.
  rewrite !list_lookup_alter_ne by exact Hne.
  rewrite lookup_app_l by exact Hlt.
  rewrite list_lookup_total_alter_eq by (rewrite length_alter, length_app; simpl; lia).
  repeat split; try reflexivity. exact Hne.
Qed.

(** ** No state is shared between identifiers *)

Lemma handleEvent_statesDistinct_kept (ev : Event) :
  (forall e, ev <> TypeScriptTextEditorOpened e) ->
  preserved statesDistinct (handleEvent C ev).
Proof.
  intros Hev.
  destruct ev as [e|ed|e|e|e p|e d|e|[|g]|ed|h|present]; simpl;
    [exfalso; apply (Hev e); reflexivity|..];
    unfold_composites; preserve_steps;
    unfold statesDistinct; simpl; intros Hw; try exact Hw.
  intros id1 id2 s. rewrite !lookup_insert. repeat case_decide; try discriminate.
  apply Hw.
Qed.

Lemma handleEvent_statesDistinct (w : World) (ev : Event) :
  registeredAllocated w -> statesDistinct w -> statesDistinct (step C w ev).
Proof.
  intros Halloc Hw.
  destruct ev as [e|ed|e|e|e p|e d|e|c|ed|h|present];
    try (apply handleEvent_statesDistinct_kept; [discriminate | exact Hw]).
  intros id1 id2 s. unfold step, handleEvent. unfold_handlers. mrun.
  rewrite !lookup_insert. repeat case_decide; try congruence.
  - intros [= <-] H2. apply Halloc in H2. lia.
  - intros H1 [= <-]. apply Halloc in H1. lia.
  - apply Hw.
Qed.

(** X9: in every world reached from the constructed coordinator, two
    identifiers that are registered at the same time hold different state
    objects. *)
Theorem registered_states_are_distinct
  (focused : option TextEditor) (hasStatusBar : bool) (evs : list Event)
  (id1 id2 : Z) (s : ref) :
  _textEditorStates (run C evs (initial focused hasStatusBar)) !! id1 = Some (Some s) ->
  _textEditorStates (run C evs (initial focused hasStatusBar)) !! id2 = Some (Some s) ->
  id1 = id2.
Proof.
  assert (Hrun : forall w, registeredAllocated w -> statesDistinct w ->
            statesDistinct (run C evs w)).
  { induction evs as [|ev evs IH]; intros w Halloc Hw; [exact Hw|].
    apply IH.
    - apply handleEvent_registeredAllocated, Halloc.
    - apply handleEvent_statesDistinct; assumption. }
  apply Hrun.
  - apply initial_registeredAllocated.
  - intros i1 i2 s' Hs. discriminate.
Qed.


(** ** Timers *)

Lemma handleEvent_timersClosed (ev : Event) :
  preserved timersClosed (handleEvent C ev).
Proof.
  assert (Halter : forall (f : Timer -> Timer) (l : list Timer) (i : nat),
            (forall t, tmState (f t) = tmState t /\ tmFunc (f t) = tmFunc t) ->
            (forall h t, l !! h = Some t ->
               exists s, tmState t = Some s /\ tmFunc t = DeferredToggleAutoComplete (Some s)) ->
            forall h t, alter f i l !! h = Some t ->
               exists s, tmState t = Some s /\ tmFunc t = DeferredToggleAutoComplete (Some s)).
  { intros f l i Hf Hl h t. rewrite list_lookup_alter. case_decide; [subst|apply Hl].
    destruct (l !! h) as [t0|] eqn:Ht0; simpl; [|discriminate].
    intros [= <-]. destruct (Hf t0) as [-> ->]. eapply Hl, Ht0. }
  destruct ev as [e|ed|e|e|e p|e d|e|[|g]|ed|h|present]; simpl.
  8: { intros w Hw. unfold timersClosed in *. unfold_handlers. mrun.
       destruct (activeTextEditor w) as [ed|]; simpl; [|exact Hw].
       destruct (negb (grammarName ed =? "TypeScript")%string); simpl; [exact Hw|].
       destruct (mjoin (_textEditorStates w !! id ed)) as [s|]; simpl; [|exact Hw].
       destruct (autoCompleteInProgress (heap w !!! s)); simpl; [exact Hw|].
       intros h t [[_ Ht]|[_ <-]]%lookup_snoc_Some; [eapply Hw, Ht|]. simpl. eauto. }
  all: unfold_composites; preserve_steps;
    unfold timersClosed; simpl; intros Hw; try exact Hw;
    refine (Halter _ _ _ _ Hw); intros t0; split; reflexivity.
Qed.

(** X10: in every world reached from the constructed coordinator, a run of
    the callback of any timer never uses an absent state: it returns without
    a [TypeError], whether the timer is cancelled or still polling, and even
    when the editor it polls for has been closed in the meantime. *)
Theorem intervalCallback_never_throws
  (focused : option TextEditor) (hasStatusBar : bool) (evs : list Event) (h : handle) :
  returns (intervalCallback C h) (run C evs (initial focused hasStatusBar)) = true.
Proof.
  assert (Hrun : forall w, timersClosed w -> timersClosed (run C evs w)).
  { induction evs as [|ev evs IH]; intros w Hw; [exact Hw|].
    apply IH, handleEvent_timersClosed, Hw. }
  assert (Hw : timersClosed (run C evs (initial focused hasStatusBar))).
  { apply Hrun. intros i t Ht. discriminate. }
  set (w := run C evs (initial focused hasStatusBar)) in *.
  unfold intervalCallback, fire, runDeferred. unfold_handlers. mrun.
  destruct (timers w !! h) as [t|] eqn:Ht; simpl; [|reflexivity].
  destruct (Hw h t Ht) as (s & Hs & Hf).
  destruct t as [tstate tfunc tcount tdelay tlive]. simpl in *. subst tstate tfunc.
  destruct tlive; simpl; [|reflexivity].
  destruct (dataSlot "contents-changing" (heap w !!! s)); simpl; [|reflexivity].
  destruct (tcount >? maxIntervals); reflexivity.
Qed.

(** ** What the coordinator holds of the host *)

Lemma handleEvent_resources_kept (ev : Event)
  (r : list (Resource * bool)) (d : list handle) :
  (forall e, ev <> TypeScriptTextEditorOpened e) ->
  preserved (fun w => resources w = r /\ _disposables w = d) (handleEvent C ev).
Proof.
  intros Hev.
  destruct ev as [e|ed|e|e|e p|e d'|e|[|g]|ed|h|present]; simpl;
    [exfalso; apply (Hev e); reflexivity|..];
    unfold_composites; preserve_steps; simpl; intros Hw; exact Hw.
Qed.

Lemma handleEvent_resources (w : World) (ev : Event) :
  resources (step C w ev)
    = resources w ++ flat_map editorSubscriptions (openedEditors [ev]) /\
  _disposables (step C w ev) = _disposables w.
Proof.
  destruct ev as [e|ed|e|e|e p|e d|e|c|ed|h|present];
    try (unfold openedEditors; simpl; rewrite app_nil_r;
         first [ split; reflexivity
               | refine (handleEvent_resources_kept _ (resources w) (_disposables w) _ w
                           (conj eq_refl eq_refl)); discriminate ]).
  unfold step, handleEvent. unfold_handlers. unfold acquire. mrun.
  rewrite <- !app_assoc. split; reflexivity.
Qed.

Lemma run_resources (evs : list Event) :
  forall w,
    resources (run C evs w)
      = resources w ++ flat_map editorSubscriptions (openedEditors evs) /\
    _disposables (run C evs w) = _disposables w.
Proof.
  induction evs as [|ev evs IH]; intros w.
  - simpl. rewrite app_nil_r. split; reflexivity.
  - destruct (handleEvent_resources w ev) as [Hr Hd].
    destruct (IH (step C w ev)) as [Hr' Hd'].
    change (run C (ev :: evs) w) with (run C evs (step C w ev)).
    rewrite Hr', Hd', Hr, Hd, <- app_assoc.
    split; [|reflexivity]. f_equal.
    change (ev :: evs) with ([ev] ++ evs).
    unfold openedEditors. rewrite omap_app, flat_map_app. reflexivity.
Qed.

Lemma dispose_resources (w : World) :
  resources (exec dispose w)
    = foldl (fun l h => alter (fun p => (p.1, false)) h l) (resources w) (_disposables w).
Proof.
  unfold dispose. mrun.
  generalize (_disposables w). intros ds. revert w.
  induction ds as [|h ds IH]; intros w; [reflexivity|].
  simpl. unfold release. mrun. rewrite IH. reflexivity.
Qed.

(** X11: whatever events were processed since construction, the host holds
    for the coordinator what the constructor acquired followed by five
    subscriptions for each opened event, all alive - a closed event releases
    nothing; and [dispose] there releases the five commands and the key map
    and leaves every subscription alive. *)
Theorem subscriptions_are_never_released
  (focused : option TextEditor) (hasStatusBar : bool) (evs : list Event) :
  resources (run C evs (initial focused hasStatusBar))
    = constructorResources false ++ flat_map editorSubscriptions (openedEditors evs) /\
  resources (exec dispose (run C evs (initial focused hasStatusBar)))
    = constructorResources true ++ flat_map editorSubscriptions (openedEditors evs).
Proof.
  destruct (run_resources evs (initial focused hasStatusBar)) as [Hr Hd].
  split; [exact Hr|].
  rewrite dispose_resources, Hd, Hr.
  change (resources (initial focused hasStatusBar)) with (constructorResources false).
  change (_disposables (initial focused hasStatusBar))
    with [2; 3; 4; 5; 6; 7]%nat.
  simpl foldl. reflexivity.
Qed.


(** ** Sessions: entering, leaving, waiting for the contents *)

Lemma alter_last {A} (f : A -> A) (l : list A) (x : A) :
  alter f (length l) (l ++ [x]) = l ++ [f x].
Proof.
  pose proof (alter_app_r f l [x] 0) as H. rewrite Nat.add_0_r in H. exact H.
Qed.

(** The callback of a polling timer, run while the flag is clear. *)
Lemma intervalCallback_fires_when_clear (w : World) (h : handle) (s : ref)
  (st : TypeScriptTextEditorState) (c : Z) :
  timers w !! h
    = Some (mkTimer (Some s) (DeferredToggleAutoComplete (Some s)) c 2 true) ->
  heap w !! s = Some st ->
  dataSlot "contents-changing" st = false ->
  trace (step C w (IntervalElapsed h))
    = trace w ++ [StateCall s MToggleAutoComplete; ClearInterval h] /\
  heap (step C w (IntervalElapsed h)) !! s
    = Some (set_dataSlot "contents-changing" false
              (set_autoCompleteInProgress (negb (autoCompleteInProgress st)) st)) /\
  timers (step C w (IntervalElapsed h))
    = alter (set_tmLive false) h (timers w) /\
  _textEditorStates (step C w (IntervalElapsed h)) = _textEditorStates w /\
  activeTextEditor (step C w (IntervalElapsed h)) = activeTextEditor w.
Proof.
  intros Htimer Hst Hflag. unfold step, handleEvent.
  unfold intervalCallback, fire, runDeferred. unfold_handlers. mrun.
  rewrite Htimer. simpl. rewrite (lookup_total_Some _ _ _ Hst), Hflag. simpl.
  rewrite <- app_assoc, list_alter_alter_eq, list_lookup_alter_eq, Hst.
  repeat split; reflexivity.
Qed.

(** The toggle command with no session: only a timer is started. *)
Lemma onToggleAutoComplete_defers (w : World) (ed : TextEditor) (s : ref)
  (st : TypeScriptTextEditorState) :
  activeTextEditor w = Some ed ->
  recognized (Some ed) = true ->
  mjoin (_textEditorStates w !! id ed) = Some s ->
  heap w !! s = Some st ->
  autoCompleteInProgress st = false ->
  step C w (CommandFired Toggle)
    = with_trace (fun t => t ++ [SetInterval (length (timers w)) 2])
        (with_timers
           (fun l => l ++ [mkTimer (Some s) (DeferredToggleAutoComplete (Some s)) 0 2 true])
           (with_trace (fun t => t ++ [StopPropagation]) w)).
Proof.
  intros Hfocus Hrec Hstate Hst Hin. simpl in Hrec.
  unfold step, handleEvent, onCommand. unfold_handlers. mrun.
  rewrite Hfocus. simpl. rewrite Hrec. simpl. rewrite Hstate. simpl.
  rewrite (lookup_total_Some _ _ _ Hst), Hin. reflexivity.
Qed.

(** The toggle command with a session: the toggle is called at once. *)
Lemma onToggleAutoComplete_leaves (w : World) (ed : TextEditor) (s : ref)
  (st : TypeScriptTextEditorState) :
  activeTextEditor w = Some ed ->
  recognized (Some ed) = true ->
  mjoin (_textEditorStates w !! id ed) = Some s ->
  heap w !! s = Some st ->
  autoCompleteInProgress st = true ->
  step C w (CommandFired Toggle)
    = with_heap (alter (applyMethod C MToggleAutoComplete) s)
        (with_trace (fun t => t ++ [StateCall s MToggleAutoComplete])
           (with_trace (fun t => t ++ [StopPropagation]) w)).
Proof.
  intros Hfocus Hrec Hstate Hst Hin. simpl in Hrec.
  unfold step, handleEvent, onCommand. unfold_handlers. mrun.
  rewrite Hfocus. simpl. rewrite Hrec. simpl. rewrite Hstate. simpl.
  rewrite (lookup_total_Some _ _ _ Hst), Hin. reflexivity.
Qed.

(** X12: the toggle command is a round trip.  With no session and the flag
    clear, the command alone does not enter the session: the session is
    entered by the first run of the timer's callback; a second toggle command
    leaves it at once.  One timer was started and it is cancelled. *)
Theorem toggle_on_then_off
  (w : World) (ed : TextEditor) (s : ref) (st : TypeScriptTextEditorState) :
  activeTextEditor w = Some ed ->
  recognized (Some ed) = true ->
  mjoin (_textEditorStates w !! id ed) = Some s ->
  heap w !! s = Some st ->
  autoCompleteInProgress st = false ->
  dataSlot "contents-changing" st = false ->
  autoCompleteInProgress (stateAt (run C [CommandFired Toggle] w) s) = false /\
  autoCompleteInProgress
    (stateAt (run C [CommandFired Toggle; IntervalElapsed (length (timers w))] w) s) = true /\
  autoCompleteInProgress
    (stateAt (run C [CommandFired Toggle; IntervalElapsed (length (timers w));
                     CommandFired Toggle] w) s) = false /\
  trace (run C [CommandFired Toggle; IntervalElapsed (length (timers w));
                CommandFired Toggle] w)
    = trace w ++ [ StopPropagation; SetInterval (length (timers w)) 2;
                   StateCall s MToggleAutoComplete; ClearInterval (length (timers w));
                   StopPropagation; StateCall s MToggleAutoComplete ] /\
  timers (run C [CommandFired Toggle; IntervalElapsed (length (timers w));
                 CommandFired Toggle] w)
    = timers w ++ [mkTimer (Some s) (DeferredToggleAutoComplete (Some s)) 0 2 false].
Proof.
  intros Hfocus Hrec Hstate Hst Hin Hflag. unfold run, stateAt. simpl.
  pose proof (onToggleAutoComplete_defers w ed s st Hfocus Hrec Hstate Hst Hin) as H1.
  set (w1 := step C w (CommandFired Toggle)) in *.
  assert (Htimer1 : timers w1 !! length (timers w)
            = Some (mkTimer (Some s) (DeferredToggleAutoComplete (Some s)) 0 2 true))
    by (rewrite H1; simpl; apply list_lookup_middle; reflexivity).
  assert (Hst1 : heap w1 !! s = Some st) by (rewrite H1; exact Hst).
  destruct (intervalCallback_fires_when_clear w1 (length (timers w)) s st 0
              Htimer1 Hst1 Hflag) as (Htr2 & Hst2 & Htm2 & Hmap2 & Hfoc2).
  set (w2 := step C w1 (IntervalElapsed (length (timers w)))) in *.
  rewrite Hin in Hst2. simpl in Hst2.
  assert (Hfocus2 : activeTextEditor w2 = Some ed) by (rewrite Hfoc2, H1; exact Hfocus).
  assert (Hstate2 : mjoin (_textEditorStates w2 !! id ed) = Some s)
    by (rewrite Hmap2, H1; exact Hstate).
  pose proof (onToggleAutoComplete_leaves w2 ed s _ Hfocus2 Hrec Hstate2 Hst2 eq_refl) as H3.
  rewrite H3. simpl.
  rewrite (lookup_total_Some _ _ _ Hst1), (lookup_total_Some _ _ _ Hst2).
  rewrite (alter_total_Some _ _ _ _ Hst2), Htr2, Htm2, H1. simpl.
  rewrite <- !app_assoc. simpl.
  rewrite alter_last. simpl.
  rewrite Hin. repeat split; reflexivity.
Qed.

(** X13: the dismiss command while a session is in progress ends the
    session, and from then on each of the four guarded commands aborts its
    key binding and calls nothing: escape, tab, enter and the arrows go back
    to the host. *)
Theorem dismiss_returns_keys_to_host
  (w : World) (ed : TextEditor) (s : ref) (st : TypeScriptTextEditorState)
  (g : GuardedCommand) :
  activeTextEditor w = Some ed ->
  mjoin (_textEditorStates w !! id ed) = Some s ->
  heap w !! s = Some st ->
  autoCompleteInProgress st = true ->
  effectsOf (onCommand C (Guarded Dismiss)) w
    = [StopPropagation; StateCall s MToggleAutoComplete] /\
  autoCompleteInProgress (stateAt (step C w (CommandFired (Guarded Dismiss))) s) = false /\
  effectsOf (onCommand C (Guarded g)) (step C w (CommandFired (Guarded Dismiss)))
    = [AbortKeyBinding] /\
  heap (run C [CommandFired (Guarded Dismiss); CommandFired (Guarded g)] w)
    = heap (step C w (CommandFired (Guarded Dismiss))).
Proof.
  intros Hfocus Hstate Hst Hin. unfold run, stateAt. simpl.
  unfold step, handleEvent, onCommand. unfold_handlers. mrun.
  rewrite Hfocus. simpl. rewrite Hstate. simpl.
  rewrite (lookup_total_Some _ _ _ Hst), Hin. simpl.
  rewrite Hfocus. simpl. rewrite Hstate. simpl.
  rewrite (alter_total_Some _ _ _ _ Hst). simpl. rewrite Hin. simpl.
  added_effects. repeat split; reflexivity.
Qed.


Lemma intervalCallback_keeps_mapping (h : handle) (m : gmap Z (option ref))
  (a : option TextEditor) :
  preserved (fun w => _textEditorStates w = m /\ activeTextEditor w = a)
    (intervalCallback C h).
Proof. unfold_composites; preserve_steps; simpl; intros Hw; exact Hw. Qed.

Lemma poll_keeps_mapping (h : handle) (n : nat) :
  forall w,
    _textEditorStates (poll C h n w) = _textEditorStates w /\
    activeTextEditor (poll C h n w) = activeTextEditor w.
Proof.
  induction n as [|n IH]; intros w; [split; reflexivity|].
  change (S n) with (1 + n)%nat. rewrite poll_add.
  destruct (IH (poll C h 1 w)) as [-> ->].
  exact (intervalCallback_keeps_mapping h _ _ w (conj eq_refl eq_refl)).
Qed.

(** The deferred toggle waits for the flag: the toggle command is given while
    the flag is set; the callback of its timer then runs up to 51 times
    without calling anything; once the contents-changed event has been
    processed, the update of the state leaving the flag clear, the next run
    calls the toggle and cancels the timer. *)
Lemma deferred_toggle_waits_for_flag
  (w : World) (ed : TextEditor) (e : TypeScriptTextEditor) (s : ref)
  (st : TypeScriptTextEditorState) (n : nat) :
  activeTextEditor w = Some ed ->
  recognized (Some ed) = true ->
  id ed = tsId e ->
  mjoin (_textEditorStates w !! tsId e) = Some s ->
  heap w !! s = Some st ->
  autoCompleteInProgress st = false ->
  dataSlot "contents-changing" st = true ->
  dataSlot "contents-changing"
    (updateFromContentChange C (set_dataSlot "contents-changing" false st)) = false ->
  (n <= 51)%nat ->
  trace (run C (CommandFired Toggle
                  :: repeat (IntervalElapsed (length (timers w))) n
                  ++ [ContentsChanged e; IntervalElapsed (length (timers w))]) w)
    = trace w ++ [ StopPropagation; SetInterval (length (timers w)) 2;
                   StateCall s MUpdateFromContentChange;
                   StateCall s MToggleAutoComplete; ClearInterval (length (timers w)) ] /\
  autoCompleteInProgress
    (stateAt (run C (CommandFired Toggle
                       :: repeat (IntervalElapsed (length (timers w))) n
                       ++ [ContentsChanged e; IntervalElapsed (length (timers w))]) w) s)
    = negb (autoCompleteInProgress
              (updateFromContentChange C (set_dataSlot "contents-changing" false st))) /\
  tmLive <$> timers (run C (CommandFired Toggle
                              :: repeat (IntervalElapsed (length (timers w))) n
                              ++ [ContentsChanged e; IntervalElapsed (length (timers w))]) w)
               !! length (timers w)
    = Some false.
Proof.
  intros Hfocus Hrec Hid Hstate Hst Hin Hflag Hclear Hn.
  set (h := length (timers w)).
  assert (Hstate' : mjoin (_textEditorStates w !! id ed) = Some s)
    by (rewrite Hid; exact Hstate).
  pose proof (onToggleAutoComplete_defers w ed s st Hfocus Hrec Hstate' Hst Hin) as H0.
  set (func := DeferredToggleAutoComplete (Some s)) in *.
  change (run C (CommandFired Toggle
                   :: repeat (IntervalElapsed h) n ++ [ContentsChanged e; IntervalElapsed h]) w)
    with (run C (repeat (IntervalElapsed h) n ++ [ContentsChanged e; IntervalElapsed h])
            (step C w (CommandFired Toggle))).
  set (w0 := step C w (CommandFired Toggle)) in *.
  unfold run. rewrite foldl_app. fold (run C (repeat (IntervalElapsed h) n) w0).
  fold (poll C h n w0). simpl foldl.
  assert (Htimer0 : timers w0 !! h = Some (mkTimer (Some s) func 0 2 true))
    by (rewrite H0; simpl; apply list_lookup_middle; reflexivity).
  assert (Hst0 : heap w0 !! s = Some st) by (rewrite H0; exact Hst).
  destruct (poll_counts n w0 h s st func 0 Htimer0 Hst0 Hflag) as (Htm & Hheap & Htr);
    [unfold maxIntervals; lia|].
  destruct (poll_keeps_mapping h n w0) as [Hmap _].
  set (wn := poll C h n w0) in *.
  assert (Hchanged :
    trace (step C wn (ContentsChanged e)) = trace wn ++ [StateCall s MUpdateFromContentChange] /\
    heap (step C wn (ContentsChanged e)) !! s
      = Some (updateFromContentChange C (set_dataSlot "contents-changing" false st)) /\
    timers (step C wn (ContentsChanged e)) = timers wn).
  { assert (Hs : mjoin (_textEditorStates wn !! tsId e) = Some s)
      by (rewrite Hmap, H0; exact Hstate).
    assert (Hstn : heap wn !! s = Some st) by (rewrite Hheap; exact Hst0).
    unfold step, handleEvent. unfold_handlers. mrun. rewrite Hs. simpl.
    destruct (_statusBar wn) as [sb|] eqn:Hsb; simpl;
      try destruct (statusBarElement wn); simpl; rewrite ?Hsb; simpl;
      rewrite list_alter_alter_eq, list_lookup_alter_eq, Hstn;
      repeat split; reflexivity. }
  destruct Hchanged as (Htr1 & Hst1 & Htm1).
  set (w1 := step C wn (ContentsChanged e)) in *.
  assert (Htimer1 : timers w1 !! h = Some (mkTimer (Some s) func (0 + Z.of_nat n) 2 true))
    by (rewrite Htm1; exact Htm).
  destruct (intervalCallback_fires_when_clear w1 h s _ _ Htimer1 Hst1 Hclear)
    as (Htr2 & Hst2 & Htm2 & _ & _).
  unfold stateAt. rewrite (lookup_total_Some _ _ _ Hst2), Htr2, Htr1, Htr, Htm2.
  rewrite list_lookup_alter_eq, Htimer1, H0. simpl. rewrite <- !app_assoc.
  repeat split; reflexivity.
Qed.

(** X15: closing an editor does not cancel the timer of a deferred toggle:
    the closed event disposes the state, and the next run of the timer's
    callback, the flag being clear, calls the toggle on the disposed state
    before it cancels the timer. *)
Theorem closed_editor_timer_still_fires
  (w : World) (e : TypeScriptTextEditor) (h : handle) (s : ref)
  (st : TypeScriptTextEditorState) (c : Z) :
  timers w !! h
    = Some (mkTimer (Some s) (DeferredToggleAutoComplete (Some s)) c 2 true) ->
  mjoin (_textEditorStates w !! tsId e) = Some s ->
  heap w !! s = Some st ->
  dataSlot "contents-changing" st = false ->
  timers (step C w (Closed e)) = timers w /\
  trace (run C [Closed e; IntervalElapsed h] w)
    = trace w ++ [StateCall s MDispose; StateCall s MToggleAutoComplete; ClearInterval h] /\
  disposed (stateAt (run C [Closed e; IntervalElapsed h] w) s) = true /\
  autoCompleteInProgress (stateAt (run C [Closed e; IntervalElapsed h] w) s)
    = negb (autoCompleteInProgress st).
Proof.
  intros Htimer Hstate Hst Hflag. unfold run. simpl.
  assert (Hclosed :
    timers (step C w (Closed e)) = timers w /\
    trace (step C w (Closed e)) = trace w ++ [StateCall s MDispose] /\
    heap (step C w (Closed e)) !! s = Some (set_disposed true st)).
  { unfold step, handleEvent. unfold_handlers. mrun. rewrite Hstate. simpl.
    rewrite list_lookup_alter_eq, Hst. repeat split; reflexivity. }
  destruct Hclosed as (Htm1 & Htr1 & Hst1).
  set (w1 := step C w (Closed e)) in *.
  assert (Htimer1 : timers w1 !! h
            = Some (mkTimer (Some s) (DeferredToggleAutoComplete (Some s)) c 2 true))
    by (rewrite Htm1; exact Htimer).
  destruct (intervalCallback_fires_when_clear w1 h s _ c Htimer1 Hst1 Hflag)
    as (Htr2 & Hst2 & _).
  split; [exact Htm1|].
  unfold stateAt. rewrite (lookup_total_Some _ _ _ Hst2), Htr2, Htr1, <- app_assoc.
  repeat split; reflexivity.
Qed.


(** X14: typing holds the toggle back.  The contents of the focused editor
    start to change and the toggle command is given with no session in
    progress: the callback of the timer runs any number of times up to 51
    without calling anything; once the contents-changed event has been
    processed - the update of the state is assumed to leave the flag clear -
    the next run of the callback calls the toggle on the updated state and
    cancels the timer. *)
Theorem typing_defers_toggle
  (w : World) (ed : TextEditor) (e : TypeScriptTextEditor) (s : ref)
  (st : TypeScriptTextEditorState) (n : nat) :
  activeTextEditor w = Some ed ->
  recognized (Some ed) = true ->
  id ed = tsId e ->
  mjoin (_textEditorStates w !! tsId e) = Some s ->
  heap w !! s = Some st ->
  autoCompleteInProgress st = false ->
  dataSlot "contents-changing"
    (updateFromContentChange C
       (set_dataSlot "contents-changing" false
          (set_dataSlot "contents-changing" true st))) = false ->
  (n <= 51)%nat ->
  trace (run C (ContentsChanging e :: CommandFired Toggle
                  :: repeat (IntervalElapsed (length (timers w))) n
                  ++ [ContentsChanged e; IntervalElapsed (length (timers w))]) w)
    = trace w ++ [ StopPropagation; SetInterval (length (timers w)) 2;
                   StateCall s MUpdateFromContentChange;
                   StateCall s MToggleAutoComplete; ClearInterval (length (timers w)) ] /\
  autoCompleteInProgress
    (stateAt (run C (ContentsChanging e :: CommandFired Toggle
                       :: repeat (IntervalElapsed (length (timers w))) n
                       ++ [ContentsChanged e; IntervalElapsed (length (timers w))]) w) s)
    = negb (autoCompleteInProgress
              (updateFromContentChange C
                 (set_dataSlot "contents-changing" false
                    (set_dataSlot "contents-changing" true st)))) /\
  tmLive <$> timers (run C (ContentsChanging e :: CommandFired Toggle
                              :: repeat (IntervalElapsed (length (timers w))) n
                              ++ [ContentsChanged e; IntervalElapsed (length (timers w))]) w)
               !! length (timers w)
    = Some false.
Proof.
  intros Hfocus Hrec Hid Hstate Hst Hin Hclear Hn.
  assert (Hchanging : step C w (ContentsChanging e)
            = with_heap (alter (set_dataSlot "contents-changing" true) s) w).
  { unfold step, handleEvent. unfold_handlers. mrun. rewrite Hstate. reflexivity. }
  change (run C (ContentsChanging e :: CommandFired Toggle
                   :: repeat (IntervalElapsed (length (timers w))) n
                   ++ [ContentsChanged e; IntervalElapsed (length (timers w))]) w)
    with (run C (CommandFired Toggle
                   :: repeat (IntervalElapsed (length (timers w))) n
                   ++ [ContentsChanged e; IntervalElapsed (length (timers w))])
            (step C w (ContentsChanging e))).
  set (w' := step C w (ContentsChanging e)) in *.
  assert (Htimers : timers w' = timers w) by (rewrite Hchanging; reflexivity).
  assert (Htrace : trace w' = trace w) by (rewrite Hchanging; reflexivity).
  rewrite <- Htimers, <- Htrace.
  apply (deferred_toggle_waits_for_flag w' ed e s
           (set_dataSlot "contents-changing" true st) n);
    try assumption; rewrite ?Hchanging; simpl; try assumption.
  - rewrite list_lookup_alter_eq, Hst. reflexivity.
  - apply dataSlot_set.
Qed.

(** X19: two toggle commands before the first interval has elapsed cancel
    each other.  With no session and the flag clear, each command starts a
    timer; the callback of the first enters the session and the callback of
    the second leaves it again. *)
Theorem double_toggle_cancels
  (w : World) (ed : TextEditor) (s : ref) (st : TypeScriptTextEditorState) :
  activeTextEditor w = Some ed ->
  recognized (Some ed) = true ->
  mjoin (_textEditorStates w !! id ed) = Some s ->
  heap w !! s = Some st ->
  autoCompleteInProgress st = false ->
  dataSlot "contents-changing" st = false ->
  trace (run C [ CommandFired Toggle; CommandFired Toggle;
                 IntervalElapsed (length (timers w));
                 IntervalElapsed (S (length (timers w))) ] w)
    = trace w ++ [ StopPropagation; SetInterval (length (timers w)) 2;
                   StopPropagation; SetInterval (S (length (timers w))) 2;
                   StateCall s MToggleAutoComplete; ClearInterval (length (timers w));
                   StateCall s MToggleAutoComplete; ClearInterval (S (length (timers w))) ] /\
  autoCompleteInProgress
    (stateAt (run C [ CommandFired Toggle; CommandFired Toggle;
                      IntervalElapsed (length (timers w)) ] w) s) = true /\
  autoCompleteInProgress
    (stateAt (run C [ CommandFired Toggle; CommandFired Toggle;
                      IntervalElapsed (length (timers w));
                      IntervalElapsed (S (length (timers w))) ] w) s) = false.
Proof.
  intros Hfocus Hrec Hstate Hst Hin Hflag. unfold run, stateAt. simpl.
  set (tm := mkTimer (Some s) (DeferredToggleAutoComplete (Some s)) 0 2 true).
  pose proof (onToggleAutoComplete_defers w ed s st Hfocus Hrec Hstate Hst Hin) as H1.
  set (w1 := step C w (CommandFired Toggle)) in *.
  assert (Hfocus1 : activeTextEditor w1 = Some ed) by (rewrite H1; exact Hfocus).
  assert (Hstate1 : mjoin (_textEditorStates w1 !! id ed) = Some s)
    by (rewrite H1; exact Hstate).
  assert (Hst1 : heap w1 !! s = Some st) by (rewrite H1; exact Hst).
  assert (Hlen1 : length (timers w1) = S (length (timers w)))
    by (rewrite H1; simpl; rewrite length_app; simpl; lia).
  pose proof (onToggleAutoComplete_defers w1 ed s st Hfocus1 Hrec Hstate1 Hst1 Hin) as H2.
  set (w2 := step C w1 (CommandFired Toggle)) in *.
  assert (Htimers2 : timers w2 = timers w ++ [tm; tm])
    by (rewrite H2, H1; simpl; rewrite <- app_assoc; reflexivity).
  assert (Hst2 : heap w2 !! s = Some st) by (rewrite H2; exact Hst1).
  assert (Htimer2 : timers w2 !! length (timers w) = Some tm)
    by (rewrite Htimers2; apply list_lookup_middle; reflexivity).
  destruct (intervalCallback_fires_when_clear w2 (length (timers w)) s st 0
              Htimer2 Hst2 Hflag) as (Htr3 & Hst3 & Htm3 & _ & _).
  set (w3 := step C w2 (IntervalElapsed (length (timers w)))) in *.
  rewrite Hin in Hst3. simpl in Hst3.
  assert (Htimer3 : timers w3 !! S (length (timers w)) = Some tm).
  { rewrite Htm3, list_lookup_alter_ne by lia. rewrite Htimers2.
    change (timers w ++ [tm; tm]) with (timers w ++ [tm] ++ [tm]).
    rewrite app_assoc. apply list_lookup_middle. rewrite length_app. simpl. lia. }
  destruct (intervalCallback_fires_when_clear w3 (S (length (timers w))) s _ 0
              Htimer3 Hst3 (dataSlot_set _ _ _)) as (Htr4 & Hst4 & _).
  rewrite (lookup_total_Some _ _ _ Hst3), (lookup_total_Some _ _ _ Hst4).
  rewrite Htr4, Htr3, H2, Hlen1, H1. simpl. rewrite <- !app_assoc.
  repeat split; reflexivity.
Qed.

End Properties.

(** * The properties on sample runs *)

Ltac evaluated := vm_compute; reflexivity.

(** The guard with a session in progress: the dismiss callback runs. *)
Lemma withAutoCompleteInProgress_guard_witness :
  activeTextEditor sampleSession = Some focusE1 /\
  mjoin (_textEditorStates sampleSession !! id focusE1) = Some 0%nat /\
  withAutoCompleteInProgress (guardedCallback sampleCollaborators Dismiss) sampleSession =
    if autoCompleteInProgress (stateAt sampleSession 0%nat)
    then guardedCallback sampleCollaborators Dismiss (Some 0%nat)
           (exec (emit StopPropagation) sampleSession)
    else (Normal tt, exec (emit AbortKeyBinding) sampleSession).
Proof.
  split; [evaluated|]. split; [evaluated|].
  apply (withAutoCompleteInProgress_guard
           (guardedCallback sampleCollaborators Dismiss) sampleSession focusE1 0%nat);
    evaluated.
Defined.

(** The commands right after construction, with a focused editor that was
    never opened. *)
Lemma commands_throw_iff_unregistered_witness :
  activeTextEditor (initial (Some focusE1) true) = Some focusE1 /\
  (forall g : GuardedCommand,
      throws (onCommand sampleCollaborators (Guarded g)) (initial (Some focusE1) true)
        = negb (registered (initial (Some focusE1) true) (id focusE1))) /\
  (recognized (Some focusE1) = true ->
      throws (onCommand sampleCollaborators Toggle) (initial (Some focusE1) true)
        = negb (registered (initial (Some focusE1) true) (id focusE1))) /\
  (recognized (Some focusE1) = false ->
      throws (onCommand sampleCollaborators Toggle) (initial (Some focusE1) true) = false /\
      effectsOf (onCommand sampleCollaborators Toggle) (initial (Some focusE1) true)
        = [AbortKeyBinding] /\
      heap (exec (onCommand sampleCollaborators Toggle) (initial (Some focusE1) true))
        = heap (initial (Some focusE1) true)).
Proof.
  split; [evaluated|].
  apply (commands_throw_iff_unregistered sampleCollaborators
           (initial (Some focusE1) true) focusE1).
  evaluated.
Defined.

(** C10, as stated, fails for the toggle command: the focused editor is of
    another language and was never opened, so its identifier is not
    registered, and the command returns normally. *)
Lemma toggle_on_other_language_does_not_throw :
  activeTextEditor (initial (Some focusOther) true) = Some focusOther /\
  registered (initial (Some focusOther) true) (id focusOther) = false /\
  throws (onCommand sampleCollaborators Toggle) (initial (Some focusOther) true) = false /\
  returns (onToggleAutoComplete sampleCollaborators) (initial (Some focusOther) true) = true.
Proof. vm_compute. repeat split; reflexivity. Qed.

(** C1, as stated, fails: the first editor has the focus and its state is
    active; the focus then moves to an editor of another language, or to no
    editor, and the state is still marked active. *)
Lemma focus_lost_state_stays_active :
  activeStates sampleWorld = [0%nat] /\
  recognized (Some focusOther) = false /\
  activeStates (exec (onTextEditorChanged sampleCollaborators (Some focusOther)) sampleWorld)
    = [0%nat] /\
  activeStates (exec (onTextEditorChanged sampleCollaborators None) sampleWorld)
    = [0%nat].
Proof. vm_compute. repeat split; reflexivity. Qed.

Lemma onTextEditorChanged_unrecognized_witness :
  recognized (Some focusOther) = false /\
  returns (onTextEditorChanged sampleCollaborators (Some focusOther)) sampleWorld = true /\
  sbVisible <$> _statusBar
    (exec (onTextEditorChanged sampleCollaborators (Some focusOther)) sampleWorld)
    = Some false /\
  effectsOf (onTextEditorChanged sampleCollaborators (Some focusOther)) sampleWorld = [] /\
  heap (exec (onTextEditorChanged sampleCollaborators (Some focusOther)) sampleWorld)
    = heap sampleWorld /\
  _activeTextEditorState
    (exec (onTextEditorChanged sampleCollaborators (Some focusOther)) sampleWorld)
    = _activeTextEditorState sampleWorld /\
  activeStates (exec (onTextEditorChanged sampleCollaborators (Some focusOther)) sampleWorld)
    = activeStates sampleWorld.
Proof.
  split; [evaluated|].
  apply (onTextEditorChanged_unrecognized sampleCollaborators sampleWorld (Some focusOther)).
  evaluated.
Defined.

(** Hovering over row 1 of the first editor, where both a diagnostic and
    quick-info exist. *)
Lemma onMouseHoverPositionChanged_tooltip_witness :
  mjoin (_textEditorStates sampleWorld !! tsId E1) = Some 0%nat /\
  heap sampleWorld !! 0%nat = Some (stateAt sampleWorld 0%nat) /\
  returns (onMouseHoverPositionChanged sampleCollaborators E1 (Some (mkPoint 1 4)))
    sampleWorld = true /\
  tooltip (stateAt (exec (onMouseHoverPositionChanged sampleCollaborators E1
                            (Some (mkPoint 1 4))) sampleWorld) 0%nat)
    = Some (TooltipMessage "Type 'string' is not assignable" (mkPoint 1 4)).
Proof.
  split; [evaluated|]. split; [evaluated|].
  pose proof (onMouseHoverPositionChanged_tooltip sampleCollaborators sampleWorld E1 0%nat
                (stateAt sampleWorld 0%nat) (Some (mkPoint 1 4))
                ltac:(evaluated) ltac:(evaluated)) as H.
  vm_compute in H |- *. exact H.
Defined.


(** The deferred toggle while the contents of the first editor keep
    changing: nothing is called during the first 50, and the first 51, runs of
    the callback; the toggle is called at the 52nd. *)
Lemma executeAfterContentChange_fail_open_witness :
  heap sampleChanging !! 0%nat = Some (stateAt sampleChanging 0%nat) /\
  dataSlot "contents-changing" (stateAt sampleChanging 0%nat) = true /\
  trace (poll sampleCollaborators 0 50 (exec (onToggleAutoComplete sampleCollaborators)
                                          sampleChanging))
    = [StateCall 0%nat MActivate; StopPropagation; SetInterval 0 2] /\
  trace (poll sampleCollaborators 0 51 (exec (onToggleAutoComplete sampleCollaborators)
                                          sampleChanging))
    = [StateCall 0%nat MActivate; StopPropagation; SetInterval 0 2] /\
  trace (poll sampleCollaborators 0 52 (exec (onToggleAutoComplete sampleCollaborators)
                                          sampleChanging))
    = [StateCall 0%nat MActivate; StopPropagation; SetInterval 0 2;
       StateCall 0%nat MToggleAutoComplete; ClearInterval 0].
Proof.
  split; [evaluated|]. split; [evaluated|].
  pose proof (executeAfterContentChange_fail_open sampleCollaborators
                (exec (emit StopPropagation) sampleChanging) 0%nat
                (stateAt sampleChanging 0%nat)
                ltac:(evaluated) ltac:(evaluated)) as (Hcounts & Hfired & _).
  pose proof (Hcounts 50%nat ltac:(lia)) as (H50 & _).
  pose proof (Hcounts 51%nat ltac:(lia)) as (H51 & _).
  vm_compute in H50, H51, Hfired |- *. auto.
Defined.

(** C3, as stated, fails: after construction and disposal the two stream
    subscriptions of the constructor are still alive. *)
Lemma dispose_keeps_subscriptions :
  resources (exec dispose (initial None true)) !! 0%nat = Some (OpenedSubscription, true) /\
  resources (exec dispose (initial None true)) !! 1%nat = Some (ChangedSubscription, true) /\
  live (exec dispose (initial None true)) 0 = true /\
  live (exec dispose (initial None true)) 1 = true.
Proof. vm_compute. repeat split; reflexivity. Qed.

(** The first editor is active and is closed; the focus then moves to the
    second editor. *)
Lemma closed_active_state_is_deactivated_later_witness :
  mjoin (_textEditorStates sampleWorld !! tsId E1) = Some 0%nat /\
  heap sampleWorld !! 0%nat = Some (stateAt sampleWorld 0%nat) /\
  _activeTextEditorState sampleWorld = Some 0%nat /\
  recognized (Some focusE2) = true /\
  disposed (stateAt (step sampleCollaborators sampleWorld (Closed E1)) 0%nat) = true /\
  registered (step sampleCollaborators sampleWorld (Closed E1)) (tsId E1) = false /\
  _activeTextEditorState (step sampleCollaborators sampleWorld (Closed E1)) = Some 0%nat /\
  head (stateCalls (effectsOf (onTextEditorChanged sampleCollaborators (Some focusE2))
                      (step sampleCollaborators sampleWorld (Closed E1))))
    = Some (0%nat, MDeactivate).
Proof.
  do 4 (split; [evaluated|]).
  apply (closed_active_state_is_deactivated_later sampleCollaborators sampleWorld E1
           focusE2 0%nat (stateAt sampleWorld 0%nat)); evaluated.
Defined.

Lemma sampleCollaborators_keepsActiveMark : keepsActiveMark sampleCollaborators.
Proof. unfold keepsActiveMark. simpl. repeat split. Defined.

(** Both editors are opened, the first one gets the focus, and the focus moves
    on to the second. *)
Lemma at_most_one_active_state_witness :
  keepsActiveMark sampleCollaborators /\
  (length (activeStates sampleWorld) <= 1)%nat /\
  recognized (Some focusE2) = true /\
  mjoin (_textEditorStates sampleWorld !! id focusE2) = Some 1%nat /\
  stateCalls (effectsOf (onTextEditorChanged sampleCollaborators (Some focusE2)) sampleWorld)
    = [(0%nat, MDeactivate); (1%nat, MActivate)] /\
  activeStates (exec (onTextEditorChanged sampleCollaborators (Some focusE2)) sampleWorld)
    = [1%nat].
Proof.
  split; [exact sampleCollaborators_keepsActiveMark|].
  pose proof (at_most_one_active_state sampleCollaborators None true
                [ TypeScriptTextEditorOpened E1; TypeScriptTextEditorOpened E2;
                  ActiveTextEditorSet (Some focusE1); TextEditorChanged (Some focusE1) ]
                sampleCollaborators_keepsActiveMark) as (Hone & Hfocus).
  split; [exact Hone|]. split; [evaluated|]. split; [evaluated|].
  pose proof (Hfocus focusE2 1%nat ltac:(evaluated) ltac:(evaluated)) as H.
  vm_compute in H |- *. exact H.
Defined.

(** The first editor is opened right after construction, used, and closed
    while another editor comes and goes. *)
Lemma closed_after_opened_witness :
  Forall (fun ev => writesEntry (tsId E1) ev = false)
    [ ContentsChanging E1; TextEditorChanged (Some focusE1);
      TypeScriptTextEditorOpened E2; Closed E2 ] /\
  disposed
    (stateAt
       (run sampleCollaborators
          [ TypeScriptTextEditorOpened E1; ContentsChanging E1;
            TextEditorChanged (Some focusE1); TypeScriptTextEditorOpened E2; Closed E2;
            Closed E1 ]
          (initial None true))
       0%nat) = true /\
  registered
    (run sampleCollaborators
       [ TypeScriptTextEditorOpened E1; ContentsChanging E1;
         TextEditorChanged (Some focusE1); TypeScriptTextEditorOpened E2; Closed E2;
         Closed E1 ]
       (initial None true))
    (tsId E1) = false.
Proof.
  assert (Hevs : Forall (fun ev => writesEntry (tsId E1) ev = false)
            [ ContentsChanging E1; TextEditorChanged (Some focusE1);
              TypeScriptTextEditorOpened E2; Closed E2 ])
    by (repeat constructor).
  split; [exact Hevs|].
  pose proof (closed_after_opened sampleCollaborators (initial None true) E1 _ Hevs)
    as (_ & _ & Hdisposed & _ & Hgone).
  vm_compute in Hdisposed, Hgone |- *. split; [exact Hdisposed | exact Hgone].
Defined.

(** * Properties of the build script *)

Lemma string_length_append (a b : string) :
  String.length (a ++ b) = (String.length a + String.length b)%nat.
Proof. induction a as [|c a IH]; simpl; [reflexivity | rewrite IH; reflexivity]. Qed.

Lemma string_append_inj_r (c : string) :
  forall a b : string, (a ++ c)%string = (b ++ c)%string -> a = b.
Proof.
  induction a as [|x a IH]; intros [|y b] Heq; simpl in Heq.
  - reflexivity.
  - apply (f_equal String.length) in Heq. simpl in Heq.
    rewrite !string_length_append in Heq. simpl in Heq. lia.
  - apply (f_equal String.length) in Heq. simpl in Heq.
    rewrite !string_length_append in Heq. simpl in Heq. lia.
  - injection Heq as -> Heq. f_equal. apply IH, Heq.
Qed.

Lemma pushGlobs_map (names globs : list string) :
  Gruntfile.pushGlobs names globs
    = globs ++ map (fun n => ("node_modules/" ++ n ++ "/**")%string) names.
Proof.
  revert globs. induction names as [|n names IH]; intros globs; simpl.
  - rewrite app_nil_r. reflexivity.
  - rewrite IH, <- app_assoc. reflexivity.
Qed.

(** X16: the files that are packaged, as the configuration holds them: the
    ten fixed patterns, followed by one pattern for each dependency of
    [package.json], in the order [for ... in] enumerates the dependencies.
    So the pattern of a module of [node_modules] is among them exactly when
    the module is a dependency, and with no [dependencies] field only the
    fixed patterns are packaged. *)
Theorem packaged_node_modules
  (process : Gruntfile.Process) (package : Gruntfile.Package)
  (c : Gruntfile.Config) (d : string) :
  Gruntfile.configObject process package = Gruntfile.Value c ->
  Gruntfile.getPluginPackagableNodeModuleGlobs package
    = map (fun n => ("node_modules/" ++ n ++ "/**")%string)
        (default [] (map fst <$> Gruntfile.dependencies package)) /\
  Gruntfile.pluginPackageFiles c
    = Gruntfile.packagedFiles
        ++ map (fun n => ("node_modules/" ++ n ++ "/**")%string)
             (default [] (map fst <$> Gruntfile.dependencies package)) /\
  (In ("node_modules/" ++ d ++ "/**")%string (Gruntfile.pluginPackageFiles c)
     <-> In d (default [] (map fst <$> Gruntfile.dependencies package))) /\
  (Gruntfile.dependencies package = None ->
     Gruntfile.pluginPackageFiles c = Gruntfile.packagedFiles).
Proof.
  intros Hc.
  assert (Hglobs : Gruntfile.getPluginPackagableNodeModuleGlobs package
            = map (fun n => ("node_modules/" ++ n ++ "/**")%string)
                (default [] (map fst <$> Gruntfile.dependencies package))).
  { unfold Gruntfile.getPluginPackagableNodeModuleGlobs.
    rewrite pushGlobs_map. reflexivity. }
  assert (Hfiles : Gruntfile.pluginPackageFiles c
            = Gruntfile.packagedFiles
                ++ Gruntfile.getPluginPackagableNodeModuleGlobs package).
  { unfold Gruntfile.configObject in Hc.
    destruct (Gruntfile.getAtomRootPackagesPath process package) as [path|m];
      [|discriminate].
    injection Hc as <-. reflexivity. }
  rewrite Hfiles, Hglobs.
  set (names := default [] (map fst <$> Gruntfile.dependencies package)).
  split; [reflexivity|]. split; [reflexivity|]. split.
  - rewrite in_app_iff, in_map_iff. split.
    + intros [Hfixed|(n & Heq & Hn)].
      * simpl in Hfixed. repeat (destruct Hfixed as [Hfixed|Hfixed]; [discriminate|]).
        contradiction.
      * apply (String.app_inj "node_modules/") in Heq.
        apply string_append_inj_r in Heq. subst n. exact Hn.
    + intros Hd. right. exists d. split; [reflexivity | exact Hd].
  - intros Hnone. unfold names. rewrite Hnone. reflexivity.
Qed.

(** X17: on a platform other than win32 the exported function throws
    "Unsupported platform..." while it builds the configuration: the five
    plugins are loaded, but grunt gets no configuration and no task - not even
    the build, test and package tasks, which do not use the packages path. *)
Theorem exports_throws_off_win32
  (process : Gruntfile.Process) (package : Gruntfile.Package) (g : Gruntfile.Grunt) :
  Gruntfile.platform process <> "win32"%string ->
  fst (Gruntfile.exports process package g)
    = Gruntfile.ErrorThrown "Unsupported platform..." /\
  Gruntfile.npmTasks (snd (Gruntfile.exports process package g))
    = Gruntfile.npmTasks g
        ++ [ "grunt-typescript"; "grunt-contrib-copy"; "grunt-contrib-clean";
             "grunt-contrib-compress"; "grunt-jasmine-node" ]%string /\
  Gruntfile.config (snd (Gruntfile.exports process package g)) = Gruntfile.config g /\
  Gruntfile.tasks (snd (Gruntfile.exports process package g)) = Gruntfile.tasks g.
Proof.
  intros Hplatform. apply String.eqb_neq in Hplatform.
  unfold Gruntfile.exports, Gruntfile.configObject, Gruntfile.getAtomRootPackagesPath.
  rewrite Hplatform. simpl. rewrite <- !app_assoc. repeat split; reflexivity.
Qed.

(** X18: on win32 the exported function returns with the four tasks
    registered after those grunt had, and the directory that the deploy task
    cleans, with force, is the directory it then copies the package into:
    the user profile, or the text "undefined" when the variable is not set,
    followed by the packages folder of the editor and the package name. *)
Theorem exports_on_win32
  (process : Gruntfile.Process) (package : Gruntfile.Package) (g : Gruntfile.Grunt) :
  Gruntfile.platform process = "win32"%string ->
  exists c : Gruntfile.Config,
    Gruntfile.exports process package g
      = (Gruntfile.Value tt,
         Gruntfile.mkGrunt
           (Gruntfile.npmTasks g
              ++ [ "grunt-typescript"; "grunt-contrib-copy"; "grunt-contrib-clean";
                   "grunt-contrib-compress"; "grunt-jasmine-node" ]%string)
           (Some c)
           (Gruntfile.tasks g
              ++ [ ("build", ["typescript:build"]);
                   ("test", ["jasmine_node"]);
                   ("deploy", ["clean:pluginOutput"; "copy:pluginOutput"]);
                   ("package", ["compress:zip"]) ]%string)) /\
    Gruntfile.cleanPluginOutputSrc c = [Gruntfile.copyPluginOutputDest c] /\
    Gruntfile.cleanPluginOutputForce c = true /\
    Gruntfile.copyPluginOutputDest c
      = (Gruntfile.toString (Gruntfile.userprofile process) ++ "/.atom/packages/"
         ++ Gruntfile.toString (Gruntfile.name package) ++ "/")%string.
Proof.
  intros Hplatform.
  unfold Gruntfile.exports, Gruntfile.configObject, Gruntfile.getAtomRootPackagesPath.
  rewrite Hplatform. simpl. eexists. split.
  - unfold Gruntfile.registerTask, Gruntfile.initConfig, Gruntfile.loadNpmTasks. simpl.
    rewrite <- !app_assoc. reflexivity.
  - repeat split; reflexivity.
Qed.

(** * The further properties on sample runs *)

(** The focus moves to the second editor. *)
Lemma onTextEditorChanged_refreshes_statusBar_witness :
  recognized (Some focusE2) = true /\
  mjoin (_textEditorStates sampleWorld !! id focusE2) = Some 1%nat /\
  heap sampleWorld !! 1%nat = Some (stateAt sampleWorld 1%nat) /\
  _statusBar (exec (onTextEditorChanged sampleCollaborators (Some focusE2)) sampleWorld)
    = Some {| sbInError := false; sbVisible := true |}.
Proof.
  do 3 (split; [evaluated|]).
  pose proof (onTextEditorChanged_refreshes_statusBar sampleCollaborators sampleWorld
                focusE2 1%nat (stateAt sampleWorld 1%nat)
                ltac:(evaluated) ltac:(evaluated) ltac:(evaluated)) as H.
  vm_compute in H |- *. exact H.
Defined.

(** The contents of the second editor change while the first has the focus. *)
Lemma onTypeScriptTextEditorContentsChanged_refreshes_witness :
  mjoin (_textEditorStates sampleWorld !! tsId E2) = Some 1%nat /\
  heap sampleWorld !! 1%nat = Some (stateAt sampleWorld 1%nat) /\
  returns (onTypeScriptTextEditorContentsChanged sampleCollaborators E2) sampleWorld = true /\
  _statusBar (exec (onTypeScriptTextEditorContentsChanged sampleCollaborators E2) sampleWorld)
    = Some {| sbInError := false; sbVisible := true |} /\
  _activeTextEditorState
    (exec (onTypeScriptTextEditorContentsChanged sampleCollaborators E2) sampleWorld)
    = Some 0%nat.
Proof.
  do 2 (split; [evaluated|]).
  pose proof (onTypeScriptTextEditorContentsChanged_refreshes sampleCollaborators
                sampleWorld E2 1%nat (stateAt sampleWorld 1%nat)
                ltac:(evaluated) ltac:(evaluated)) as (H1 & _ & H3 & _ & H5).
  vm_compute in H1, H3, H5 |- *. auto.
Defined.

(** A hover event of an editor that was never opened. *)
Lemma editor_event_throws_iff_unregistered_witness :
  editorOf (MouseHoverPositionChanged E1 (Some (mkPoint 1 4))) = Some E1 /\
  throws (handleEvent sampleCollaborators (MouseHoverPositionChanged E1 (Some (mkPoint 1 4))))
    (initial None true) = true /\
  step sampleCollaborators (initial None true)
    (MouseHoverPositionChanged E1 (Some (mkPoint 1 4))) = initial None true.
Proof.
  split; [reflexivity|].
  pose proof (editor_event_throws_iff_unregistered sampleCollaborators (initial None true)
                (MouseHoverPositionChanged E1 (Some (mkPoint 1 4))) E1 eq_refl)
    as [Hthrows Hsame].
  split; [vm_compute in Hthrows |- *; exact Hthrows | apply Hsame; evaluated].
Defined.

(** The second editor is closed while the first is active. *)
Lemma editor_event_isolated_witness :
  editorOf (Closed E2) = Some E2 /\
  mjoin (_textEditorStates sampleWorld !! tsId E2) = Some 1%nat /\
  heap (step sampleCollaborators sampleWorld (Closed E2)) !! 0%nat = heap sampleWorld !! 0%nat /\
  _activeTextEditorState (step sampleCollaborators sampleWorld (Closed E2))
    = _activeTextEditorState sampleWorld /\
  _textEditorStates (step sampleCollaborators sampleWorld (Closed E2)) !! tsId E1
    = _textEditorStates sampleWorld !! tsId E1.
Proof.
  split; [reflexivity|]. split; [evaluated|].
  pose proof (editor_event_isolated sampleCollaborators sampleWorld (Closed E2) E2 1%nat
                eq_refl ltac:(evaluated)) as (Hheap & _ & Hptr & Hmap).
  split; [apply Hheap; discriminate|]. split; [exact Hptr|].
  apply Hmap. discriminate.
Defined.

(** The focus moves to an editor of the recognized language that was never
    opened. *)
Lemma onTextEditorChanged_unregistered_witness :
  recognized (Some (mkTextEditor 9 "TypeScript")) = true /\
  mjoin (_textEditorStates sampleWorld !! id (mkTextEditor 9 "TypeScript")) = None /\
  throws (onTextEditorChanged sampleCollaborators (Some (mkTextEditor 9 "TypeScript")))
    sampleWorld = true /\
  effectsOf (onTextEditorChanged sampleCollaborators (Some (mkTextEditor 9 "TypeScript")))
    sampleWorld = [StateCall 0%nat MDeactivate] /\
  _activeTextEditorState
    (exec (onTextEditorChanged sampleCollaborators (Some (mkTextEditor 9 "TypeScript")))
       sampleWorld) = None.
Proof.
  do 2 (split; [evaluated|]).
  pose proof (onTextEditorChanged_unregistered sampleCollaborators sampleWorld
                (mkTextEditor 9 "TypeScript") ltac:(evaluated) ltac:(evaluated))
    as (H1 & H2 & H3 & _).
  vm_compute in H1, H2, H3 |- *. auto.
Defined.

(** The first editor is opened a second time, then closed. *)
Lemma reopened_editor_orphans_first_state_witness :
  holdsState (tsId E1) 0%nat sampleWorld /\
  mjoin (_textEditorStates (step sampleCollaborators sampleWorld
                              (TypeScriptTextEditorOpened E1)) !! tsId E1) = Some 2%nat /\
  disposed (stateAt (run sampleCollaborators [TypeScriptTextEditorOpened E1; Closed E1]
                       sampleWorld) 0%nat) = false /\
  disposed (stateAt (run sampleCollaborators [TypeScriptTextEditorOpened E1; Closed E1]
                       sampleWorld) 2%nat) = true.
Proof.
  assert (Hholds : holdsState (tsId E1) 0%nat sampleWorld)
    by (split; [evaluated | vm_compute; lia]).
  split; [exact Hholds|].
  pose proof (reopened_editor_orphans_first_state sampleCollaborators sampleWorld E1 0%nat
                Hholds) as (H1 & _ & _ & _ & H5 & H6 & _).
  split; [vm_compute in H1 |- *; exact H1|].
  split; [|vm_compute in H6 |- *; exact H6].
  unfold stateAt. rewrite (list_lookup_total_correct _ _ _ H5). evaluated.
Defined.

(** Both editors are registered; the state of the first is held by no other
    identifier. *)
Lemma registered_states_are_distinct_witness :
  _textEditorStates sampleWorld !! 1 = Some (Some 0%nat) /\ (1 : Z) = 1.
Proof.
  split; [evaluated|].
  apply (registered_states_are_distinct sampleCollaborators None true
           [ TypeScriptTextEditorOpened E1; TypeScriptTextEditorOpened E2;
             ActiveTextEditorSet (Some focusE1); TextEditorChanged (Some focusE1) ]
           1 1 0%nat); evaluated.
Defined.

(** The toggle command twice, with no session at first. *)
Lemma toggle_on_then_off_witness :
  activeTextEditor sampleWorld = Some focusE1 /\
  recognized (Some focusE1) = true /\
  mjoin (_textEditorStates sampleWorld !! id focusE1) = Some 0%nat /\
  heap sampleWorld !! 0%nat = Some (stateAt sampleWorld 0%nat) /\
  autoCompleteInProgress (stateAt sampleWorld 0%nat) = false /\
  dataSlot "contents-changing" (stateAt sampleWorld 0%nat) = false /\
  autoCompleteInProgress
    (stateAt (run sampleCollaborators [CommandFired Toggle; IntervalElapsed 0%nat]
                sampleWorld) 0%nat) = true /\
  autoCompleteInProgress
    (stateAt (run sampleCollaborators
                [CommandFired Toggle; IntervalElapsed 0%nat; CommandFired Toggle]
                sampleWorld) 0%nat) = false.
Proof.
  do 6 (split; [evaluated|]).
  pose proof (toggle_on_then_off sampleCollaborators sampleWorld focusE1 0%nat
                (stateAt sampleWorld 0%nat)
                ltac:(evaluated) ltac:(evaluated) ltac:(evaluated) ltac:(evaluated)
                ltac:(evaluated) ltac:(evaluated)) as (_ & H2 & H3 & _).
  vm_compute in H2, H3 |- *. auto.
Defined.

(** The dismiss command during a session, then the confirm command. *)
Lemma dismiss_returns_keys_to_host_witness :
  activeTextEditor sampleSession = Some focusE1 /\
  mjoin (_textEditorStates sampleSession !! id focusE1) = Some 0%nat /\
  heap sampleSession !! 0%nat = Some (stateAt sampleSession 0%nat) /\
  autoCompleteInProgress (stateAt sampleSession 0%nat) = true /\
  effectsOf (onCommand sampleCollaborators (Guarded Confirm))
    (step sampleCollaborators sampleSession (CommandFired (Guarded Dismiss)))
    = [AbortKeyBinding].
Proof.
  do 4 (split; [evaluated|]).
  pose proof (dismiss_returns_keys_to_host sampleCollaborators sampleSession focusE1 0%nat
                (stateAt sampleSession 0%nat) Confirm
                ltac:(evaluated) ltac:(evaluated) ltac:(evaluated) ltac:(evaluated))
    as (_ & _ & H3 & _).
  vm_compute in H3 |- *. exact H3.
Defined.


(** The first editor is closed while the timer of its toggle is polling. *)
Lemma closed_editor_timer_still_fires_witness :
  timers sampleDeferred !! 0%nat
    = Some (mkTimer (Some 0%nat) (DeferredToggleAutoComplete (Some 0%nat)) 0 2 true) /\
  mjoin (_textEditorStates sampleDeferred !! tsId E1) = Some 0%nat /\
  heap sampleDeferred !! 0%nat = Some (stateAt sampleDeferred 0%nat) /\
  dataSlot "contents-changing" (stateAt sampleDeferred 0%nat) = false /\
  trace (run sampleCollaborators [Closed E1; IntervalElapsed 0%nat] sampleDeferred)
    = [ StateCall 0%nat MActivate; StopPropagation; SetInterval 0 2;
        StateCall 0%nat MDispose; StateCall 0%nat MToggleAutoComplete; ClearInterval 0 ] /\
  disposed (stateAt (run sampleCollaborators [Closed E1; IntervalElapsed 0%nat]
                       sampleDeferred) 0%nat) = true.
Proof.
  do 4 (split; [evaluated|]).
  pose proof (closed_editor_timer_still_fires sampleCollaborators sampleDeferred E1 0%nat
                0%nat (stateAt sampleDeferred 0%nat) 0
                ltac:(evaluated) ltac:(evaluated) ltac:(evaluated) ltac:(evaluated))
    as (_ & H2 & H3 & _).
  vm_compute in H2, H3 |- *. auto.
Defined.

(** The script on Linux, and on Windows. *)
Lemma exports_throws_off_win32_witness :
  Gruntfile.platform sampleLinux <> "win32"%string /\
  fst (Gruntfile.exports sampleLinux samplePackage emptyGrunt)
    = Gruntfile.ErrorThrown "Unsupported platform..." /\
  Gruntfile.tasks (snd (Gruntfile.exports sampleLinux samplePackage emptyGrunt)) = [].
Proof.
  assert (Hlinux : Gruntfile.platform sampleLinux <> "win32"%string) by discriminate.
  split; [exact Hlinux|].
  pose proof (exports_throws_off_win32 sampleLinux samplePackage emptyGrunt Hlinux)
    as (H1 & _ & _ & H4).
  split; [exact H1 | exact H4].
Defined.

Lemma exports_on_win32_witness :
  Gruntfile.platform sampleWindows = "win32"%string /\
  exists c : Gruntfile.Config,
    Gruntfile.config (snd (Gruntfile.exports sampleWindows samplePackage emptyGrunt)) = Some c /\
    Gruntfile.cleanPluginOutputSrc c
      = ["C:/Users/dev/.atom/packages/typescript-atomizer/"%string] /\
    Gruntfile.copyPluginOutputDest c
      = "C:/Users/dev/.atom/packages/typescript-atomizer/"%string.
Proof.
  split; [reflexivity|].
  destruct (exports_on_win32 sampleWindows samplePackage emptyGrunt eq_refl)
    as (c & Hexports & Hclean & _ & Hdest).
  exists c. rewrite Hexports, Hclean, Hdest. repeat split; reflexivity.
Defined.

(** The contents of the first editor start to change, the toggle command is
    given, the callback of the timer runs three times, the contents have
    changed and the callback runs once more. *)
Lemma typing_defers_toggle_witness :
  activeTextEditor sampleWorld = Some focusE1 /\
  mjoin (_textEditorStates sampleWorld !! tsId E1) = Some 0%nat /\
  heap sampleWorld !! 0%nat = Some (stateAt sampleWorld 0%nat) /\
  autoCompleteInProgress (stateAt sampleWorld 0%nat) = false /\
  trace (run sampleCollaborators
           [ ContentsChanging E1; CommandFired Toggle; IntervalElapsed 0%nat;
             IntervalElapsed 0%nat; IntervalElapsed 0%nat; ContentsChanged E1;
             IntervalElapsed 0%nat ]
           sampleWorld)
    = [ StateCall 0%nat MActivate; StopPropagation; SetInterval 0 2;
        StateCall 0%nat MUpdateFromContentChange;
        StateCall 0%nat MToggleAutoComplete; ClearInterval 0 ].
Proof.
  do 4 (split; [evaluated|]).
  pose proof (typing_defers_toggle sampleCollaborators sampleWorld focusE1
                E1 0%nat (stateAt sampleWorld 0%nat) 3
                ltac:(evaluated) ltac:(evaluated) ltac:(evaluated) ltac:(evaluated)
                ltac:(evaluated) ltac:(evaluated) ltac:(evaluated)
                ltac:(lia)) as (H1 & _).
  vm_compute in H1 |- *. exact H1.
Defined.

(** The toggle command twice in a row, then both timers. *)
Lemma double_toggle_cancels_witness :
  activeTextEditor sampleWorld = Some focusE1 /\
  recognized (Some focusE1) = true /\
  mjoin (_textEditorStates sampleWorld !! id focusE1) = Some 0%nat /\
  heap sampleWorld !! 0%nat = Some (stateAt sampleWorld 0%nat) /\
  autoCompleteInProgress (stateAt sampleWorld 0%nat) = false /\
  dataSlot "contents-changing" (stateAt sampleWorld 0%nat) = false /\
  autoCompleteInProgress
    (stateAt (run sampleCollaborators
                [ CommandFired Toggle; CommandFired Toggle; IntervalElapsed 0%nat;
                  IntervalElapsed 1%nat ] sampleWorld) 0%nat) = false.
Proof.
  do 6 (split; [evaluated|]).
  pose proof (double_toggle_cancels sampleCollaborators sampleWorld focusE1 0%nat
                (stateAt sampleWorld 0%nat)
                ltac:(evaluated) ltac:(evaluated) ltac:(evaluated) ltac:(evaluated)
                ltac:(evaluated) ltac:(evaluated)) as (_ & _ & H3).
  vm_compute in H3 |- *. exact H3.
Defined.

(** The package on Windows: the two dependencies come last, in the order of
    [package.json]. *)
Lemma packaged_node_modules_witness :
  exists c : Gruntfile.Config,
    Gruntfile.configObject sampleWindows samplePackage = Gruntfile.Value c /\
    Gruntfile.pluginPackageFiles c
      = [ "grammars/*"; "keymaps/*"; "stylesheets/*"; "images/**"; "lib/**/*.js";
          "lib/TypeScript/**"; "lib/Bootstrap/**"; "spec/**/*.js"; "package.json";
          "README.md"; "node_modules/rx/**"; "node_modules/atomizer-core/**" ]%string.
Proof.
  eexists. split; [reflexivity|].
  exact (proj1 (proj2 (packaged_node_modules sampleWindows samplePackage _ "rx"
                         eq_refl))).
Defined.

(** The model of the status bar is made while the document has no
    [status-bar] element; the element appears, editors are opened and
    focused, and the view is still not attached. *)
Lemma statusBar_attached_at_most_once_witness :
  is_Some (_statusBar (run sampleCollaborators [TextEditorChanged None] (initial None false))) /\
  statusBarElement
    (run sampleCollaborators
       [ StatusBarElementSet true; TypeScriptTextEditorOpened E1;
         TextEditorChanged (Some focusE1) ]
       (run sampleCollaborators [TextEditorChanged None] (initial None false))) = true /\
  leftTiles
    (run sampleCollaborators
       [ StatusBarElementSet true; TypeScriptTextEditorOpened E1;
         TextEditorChanged (Some focusE1) ]
       (run sampleCollaborators [TextEditorChanged None] (initial None false))) = [].
Proof.
  assert (Hmodel : is_Some (_statusBar (run sampleCollaborators [TextEditorChanged None]
                                          (initial None false))))
    by (vm_compute; eauto).
  split; [exact Hmodel|]. split; [evaluated|].
  rewrite (proj2 (statusBar_attached_at_most_once sampleCollaborators None false
                    [TextEditorChanged None]
                    [ StatusBarElementSet true; TypeScriptTextEditorOpened E1;
                      TextEditorChanged (Some focusE1) ]) Hmodel).
  evaluated.
Defined.
